(** * Insurance advisor front end: a shallow embedding of the view logic

    The repository is a React/TypeScript front end.  The parts that carry
    behaviour are the event handlers of the page components and the REST
    client in [services/api.ts].  They are embedded here as follows:

    - JavaScript values that the code treats dynamically ([any], truthiness,
      [NaN]) are given the small value model of module [Js];
    - [Date] objects are reduced to the calendar fields the code reads;
    - an [async] handler is a term of the free monad [Proc]: state setters,
      awaited requests, browser effects, [throw], with [try]/[catch]/[finally]
      as combinators; it is run against a backend oracle;
    - each component is a module holding its state record, its handlers and
      the part of its render function that decides which panel or control is
      shown. *)

From Stdlib Require Import ZArith List String Ascii Bool Lia Permutation.
From ExtLib Require Import Structures.Monad.
Import ListNotations.
Import MonadNotation.
Local Open Scope string_scope.
Local Open Scope list_scope.
Local Open Scope monad_scope.
Local Open Scope Z_scope.

Set Implicit Arguments.

(* ===================================================================== *)
(** ** JavaScript values                                                  *)
(* ===================================================================== *)

Module Js.

(** A value of TypeScript type [any], as far as JSON can carry it. *)
#[warnings="-register-all"]
Inductive JsVal : Type :=
| JsUndefined
| JsNull
| JsBool (b : bool)
| JsNumber (n : Z)
| JsString (s : string)
| JsArray (items : list JsVal)
| JsObject (props : list (string * JsVal)).

(** [ToBoolean]: what [||], [&&], [!] and [if] test. *)
Definition truthy (v : JsVal) : bool :=
  match v with
  | JsUndefined | JsNull => false
  | JsBool b => b
  | JsNumber n => negb (n =? 0)
  | JsString s => negb (String.eqb s "")
  | JsArray _ | JsObject _ => true
  end.

(** [a || b] *)
Definition or_else (a b : JsVal) : JsVal := if truthy a then a else b.

Fixpoint lookup (k : string) (props : list (string * JsVal)) : JsVal :=
  match props with
  | [] => JsUndefined
  | (k', v) :: rest => if String.eqb k k' then v else lookup k rest
  end.

(** [v?.k]: [undefined] on [null]/[undefined], the property otherwise.
    Primitives and arrays have no own property of the names used here. *)
Definition opt_chain (v : JsVal) (k : string) : JsVal :=
  match v with
  | JsObject props => lookup k props
  | _ => JsUndefined
  end.

(** Truthiness of a string-typed field: non-empty. *)
Definition nonempty (s : string) : bool := negb (String.eqb s "").

(** A number that may be [NaN]. *)
Definition num := option Z.
Definition NaN : num := None.

Definition sub (a b : num) : num :=
  match a, b with Some x, Some y => Some (x - y) | _, _ => NaN end.
(** Comparisons with [NaN] are false. *)
Definition lt (a b : num) : bool :=
  match a, b with Some x, Some y => x <? y | _, _ => false end.
Definition ge (a b : num) : bool :=
  match a, b with Some x, Some y => y <=? x | _, _ => false end.
Definition strict_eq (a b : num) : bool :=
  match a, b with Some x, Some y => x =? y | _, _ => false end.
Definition dec (a : num) : num :=
  match a with Some x => Some (x - 1) | None => NaN end.

(** Strings whose characters matter (customer names, file names) are
    sequences of UTF-16 code units. *)
Definition jsstr := list N.

Definition lit (s : string) : jsstr :=
  List.map N_of_ascii (list_ascii_of_string s).

(** The class [\s] of ECMAScript regular expressions: WhiteSpace and
    LineTerminator code points. *)
Definition is_space (c : N) : bool :=
  ((9 <=? c) && (c <=? 13)           (* TAB LF VT FF CR *)
   || (c =? 32)                      (* SPACE *)
   || (c =? 160)                     (* NBSP *)
   || (c =? 5760)                    (* U+1680 *)
   || ((8192 <=? c) && (c <=? 8202)) (* U+2000 .. U+200A *)
   || (c =? 8232) || (c =? 8233)     (* LS PS *)
   || (c =? 8239) || (c =? 8287)     (* U+202F U+205F *)
   || (c =? 12288)                   (* U+3000 *)
   || (c =? 65279))%N.               (* U+FEFF *)

Definition underscore : N := 95%N.

(** [s.replace(/\s+/g, '_')].  The scan goes left to right; [\s+] is
    greedy, so a match covers a maximal run of white space, and the next
    match is searched after it.  [in_run] says that the previous code unit
    belonged to the run already replaced. *)
Fixpoint replace_spaces_from (in_run : bool) (s : jsstr) : jsstr :=
  match s with
  | [] => []
  | c :: rest =>
      if is_space c
      then if in_run then replace_spaces_from true rest
           else underscore :: replace_spaces_from true rest
      else c :: replace_spaces_from false rest
  end.

Definition replace_spaces (s : jsstr) : jsstr := replace_spaces_from false s.

(** [s.split(sep)[0]] for a one-unit separator: the part before its first
    occurrence, the whole string when it does not occur. *)
Fixpoint before_first (sep : N) (s : jsstr) : jsstr :=
  match s with
  | [] => []
  | c :: rest => if (c =? sep)%N then [] else c :: before_first sep rest
  end.

End Js.

(* ===================================================================== *)
(** ** Dates                                                              *)
(* ===================================================================== *)

Module JsDate.

(** The calendar fields the code reads from a [Date]; [getMonth] counts
    from 0. *)
Record Fields : Type := mkFields {
  getFullYear : Z;
  getMonth : Z;
  getDate : Z
}.

Definition is_leap (y : Z) : bool :=
  (y mod 4 =? 0) && (negb (y mod 100 =? 0) || (y mod 400 =? 0)).

(** Days of month [m], counted from 1. *)
Definition days_in_month (y m : Z) : Z :=
  if m =? 2 then (if is_leap y then 29 else 28)
  else if (m =? 4) || (m =? 6) || (m =? 9) || (m =? 11) then 30
  else 31.

Definition digit (a : ascii) : option Z :=
  let n := Z.of_N (N_of_ascii a) in
  if (48 <=? n) && (n <=? 57) then Some (n - 48) else None.

Definition digits2 (a b : ascii) : option Z :=
  match digit a, digit b with
  | Some x, Some y => Some (10 * x + y)
  | _, _ => None
  end.

Definition digits4 (a b c d : ascii) : option Z :=
  match digits2 a b, digits2 c d with
  | Some x, Some y => Some (100 * x + y)
  | _, _ => None
  end.

Definition valid_ymd (y m d : Z) : bool :=
  (1 <=? m) && (m <=? 12) && (1 <=? d) && (d <=? days_in_month y m).

(** The date-only form [YYYY-MM-DD], which is what a control of type
    [date] hands to [onChange].  The result is (year, month from 1, day).
    Any other text is taken as unparseable. *)
Definition parse_date_only (s : string) : option (Z * Z * Z) :=
  match s with
  | String y1 (String y2 (String y3 (String y4 (String "-"
    (String m1 (String m2 (String "-"
    (String d1 (String d2 EmptyString))))))))) =>
      match digits4 y1 y2 y3 y4, digits2 m1 m2, digits2 d1 d2 with
      | Some y, Some m, Some d =>
          if valid_ymd y m d then Some (y, m, d) else None
      | _, _, _ => None
      end
  | _ => None
  end.

(** The calendar day before (year, month from 1, day). *)
Definition prev_day (ymd : Z * Z * Z) : Z * Z * Z :=
  let '(y, m, d) := ymd in
  if 1 <? d then (y, m, d - 1)
  else if 1 <? m then (y, m - 1, days_in_month y (m - 1))
  else (y - 1, 12, 31).

(** [new Date(s)]: a date-only string denotes midnight UTC of that day.
    The getters answer in local time, [tz] minutes ahead of UTC (real
    zones lie between -12h and +14h): the same calendar day east of
    Greenwich, the day before west of it.  [None] is an invalid date,
    whose getters all return [NaN]. *)
Definition new_Date (tz : Z) (s : string) : option Fields :=
  match parse_date_only s with
  | Some ymd =>
      let '(y, m, d) := if tz <? 0 then prev_day ymd else ymd in
      Some (mkFields y (m - 1) d)
  | None => None
  end.

Definition year_of (d : option Fields) : Js.num := option_map getFullYear d.
Definition month_of (d : option Fields) : Js.num := option_map getMonth d.
Definition date_of (d : option Fields) : Js.num := option_map getDate d.

(** Universal time as [toISOString] prints it. *)
Record UTC : Type := mkUTC {
  utcYear : Z; utcMonth : Z (* from 1 *); utcDay : Z;
  utcHours : Z; utcMinutes : Z; utcSeconds : Z; utcMillis : Z
}.

Definition digit_unit (n : Z) : N := (48 + Z.to_N (n mod 10))%N.

(** [n] printed in [w] decimal digits, padded with zeros. *)
Fixpoint pad (w : nat) (n : Z) : Js.jsstr :=
  match w with
  | O => []
  | S w' => pad w' (n / 10) ++ [digit_unit n]
  end.

(** [Date.prototype.toISOString]: four-digit years from 0 to 9999, the
    signed six-digit form outside. *)
Definition toISOString (t : UTC) : Js.jsstr :=
  (if (0 <=? utcYear t) && (utcYear t <=? 9999) then pad 4 (utcYear t)
   else Js.lit (if utcYear t <? 0 then "-" else "+") ++ pad 6 (Z.abs (utcYear t)))
  ++ Js.lit "-" ++ pad 2 (utcMonth t) ++ Js.lit "-" ++ pad 2 (utcDay t)
  ++ Js.lit "T" ++ pad 2 (utcHours t) ++ Js.lit ":" ++ pad 2 (utcMinutes t)
  ++ Js.lit ":" ++ pad 2 (utcSeconds t) ++ Js.lit "." ++ pad 3 (utcMillis t)
  ++ Js.lit "Z".

End JsDate.

(* ===================================================================== *)
(** ** Asynchronous handlers                                              *)
(* ===================================================================== *)

Module Async.

(** What the backend sent back with a failure, when it answered at all. *)
Record ErrorResponse : Type := mkErrorResponse {
  status : Z;
  detail : option string          (* [response.data.detail] *)
}.

(** What a [catch] clause can receive: a rejected axios call (without a
    response for time-outs and network failures) or an [Error] thrown by
    the handler itself. *)
Inductive Exn : Type :=
| AxiosError (code : string) (response : option ErrorResponse)
| JsError (message : string).

(** [err.response?.data?.detail] *)
Definition response_detail (e : Exn) : option string :=
  match e with
  | AxiosError _ (Some r) => detail r
  | _ => None
  end.

(** [d || fallback] on an optional string: the empty string is falsy. *)
Definition detail_or (d : option string) (fallback : string) : string :=
  match d with
  | Some s => if Js.nonempty s then s else fallback
  | None => fallback
  end.

Inductive Outcome (T : Type) : Type :=
| Ok (data : T)
| Fail (e : Exn).
Arguments Fail {T} e.

Section Proc.

(** [Req T] are the requests answered with a [T]; [Eff] the browser
    effects; [S] the component state held by [useState]. *)
Variable Req : Type -> Type.
Variable Eff : Type.
Variable S : Type.

Inductive Proc (A : Type) : Type :=
| Ret (a : A)
| Throw (e : Exn)
| SetState (f : S -> S) (k : Proc A)
| Perform (ev : Eff) (k : Proc A)
| Await (T : Type) (r : Req T) (k : Outcome T -> Proc A).
Arguments Throw {A} e.

Fixpoint bind {A B : Type} (p : Proc A) (f : A -> Proc B) : Proc B :=
  match p with
  | Ret a => f a
  | Throw e => Throw e
  | SetState g k => SetState g (bind k f)
  | Perform ev k => Perform ev (bind k f)
  | Await r k => Await r (fun o => bind (k o) f)
  end.

(** [try { p } catch (err) { h err }] *)
Fixpoint try_catch {A : Type} (p : Proc A) (h : Exn -> Proc A) : Proc A :=
  match p with
  | Ret a => Ret a
  | Throw e => h e
  | SetState g k => SetState g (try_catch k h)
  | Perform ev k => Perform ev (try_catch k h)
  | Await r k => Await r (fun o => try_catch (k o) h)
  end.

(** [try { p } finally { q }]: [q] runs on both exits and the exit of [p]
    is kept. *)
Fixpoint finally {A : Type} (p : Proc A) (q : Proc unit) : Proc A :=
  match p with
  | Ret a => bind q (fun _ => Ret a)
  | Throw e => bind q (fun _ => Throw e)
  | SetState g k => SetState g (finally k q)
  | Perform ev k => Perform ev (finally k q)
  | Await r k => Await r (fun o => finally (k o) q)
  end.

(** [await r]: the data of the response, or the rejection thrown. *)
Definition await {T : Type} (r : Req T) : Proc T :=
  Await r (fun o => match o with Ok d => Ret d | Fail e => Throw e end).

Definition set (f : S -> S) : Proc unit := SetState f (Ret tt).
Definition perform (ev : Eff) : Proc unit := Perform ev (Ret tt).
Definition throw {A : Type} (e : Exn) : Proc A := Throw e.

(** The backend answers every request. *)
Definition Backend : Type := forall T : Type, Req T -> Outcome T.

(** What a run leaves behind: the requests issued, each with the component
    state while it was in flight, and the browser effects, in order. *)
Inductive Event : Type :=
| Sent (T : Type) (r : Req T) (during : S)
| Did (ev : Eff).

Fixpoint run {A : Type} (b : Backend) (p : Proc A) (s : S)
  : S * list Event * (A + Exn) :=
  match p with
  | Ret a => (s, [], inl a)
  | Throw e => (s, [], inr e)
  | SetState f k => run b k (f s)
  | Perform ev k =>
      let '(s', tr, res) := run b k s in (s', Did ev :: tr, res)
  | Await r k =>
      let '(s', tr, res) := run b (k (b _ r)) s in (s', Sent r s :: tr, res)
  end.

Definition final_state {A : Type} (x : S * list Event * (A + Exn)) : S :=
  fst (fst x).
Definition trace {A : Type} (x : S * list Event * (A + Exn)) : list Event :=
  snd (fst x).
Definition outcome {A : Type} (x : S * list Event * (A + Exn)) : A + Exn :=
  snd x.

Fixpoint count_requests (tr : list Event) : nat :=
  match tr with
  | [] => O
  | Sent _ _ :: rest => Datatypes.S (count_requests rest)
  | Did _ :: rest => count_requests rest
  end.

Fixpoint effects_of (tr : list Event) : list Eff :=
  match tr with
  | [] => []
  | Sent _ _ :: rest => effects_of rest
  | Did ev :: rest => ev :: effects_of rest
  end.

(** The component states observed while some request was in flight. *)
Fixpoint in_flight_states (tr : list Event) : list S :=
  match tr with
  | [] => []
  | Sent _ s :: rest => s :: in_flight_states rest
  | Did _ :: rest => in_flight_states rest
  end.

End Proc.

Arguments Ret {Req Eff S A} a.
Arguments Throw {Req Eff S A} e.
Arguments SetState {Req Eff S A} f k.
Arguments Perform {Req Eff S A} ev k.
Arguments Await {Req Eff S A T} r k.
Arguments Sent {Req Eff S T} r during.
Arguments Did {Req Eff S} ev.
Arguments await {Req Eff S T} r.
Arguments set {Req Eff S} f.
Arguments perform {Req Eff S} ev.
Arguments throw {Req Eff S A} e.

#[export] Instance Monad_Proc (Req : Type -> Type) (Eff S : Type)
  : Monad (Proc Req Eff S) :=
  {| ret := fun A (a : A) => Ret a;
     Monad.bind := fun A B (p : Proc Req Eff S A) f => bind p f |}.

End Async.

(* ===================================================================== *)
(** ** services/api.ts                                                    *)
(* ===================================================================== *)

Module Api.
Import Js Async.

(** [interface Customer].  At run time [id] is absent until the backend
    assigns one, and [age] is absent in a form draft ([Partial<Customer>])
    until a date of birth has been entered; the string unions [gender] and
    [risk_appetite] are strings. *)
Record Customer : Type := mkCustomer {
  id : option Z;
  name : string;
  email : string;
  phone : string;
  date_of_birth : string;
  age : option Z;
  gender : string;
  occupation : string;
  annual_income : Z;
  family_size : Z;
  dependents : Z;
  existing_insurance : JsVal;
  health_conditions : list string;
  lifestyle_factors : list string;
  risk_appetite : string;
  investment_goals : list string
}.

(** The object literal built in [createNeedsAnalysis].  The literals [6.0]
    and [8.0] are the numbers 6 and 8. *)
Record CalculatorInput : Type := mkCalculatorInput {
  customer_id : option Z;
  calculation_type : string;
  ci_age : option Z;
  ci_gender : string;
  ci_annual_income : Z;
  ci_family_size : Z;
  ci_dependents : Z;
  existing_coverage : JsVal;
  debt_obligations : Z;
  children_education_needs : Z;
  retirement_needs : Z;
  inflation_rate : Z;
  return_rate : Z
}.

(** The customer of [PDFReports.tsx], a local interface of that file. *)
Record ReportCustomer : Type := mkReportCustomer {
  rc_id : Z;
  rc_name : jsstr;
  rc_email : string;
  rc_age : Z;
  rc_annual_income : Z;
  rc_family_size : Z
}.

(** Body of the comparison request; [parseInt] may have left [NaN] in the
    numeric fields. *)
Record CompareBody : Type := mkCompareBody {
  product_ids : list Z;
  cb_age : num;
  cb_gender : string;
  cb_annual_income : num;
  cb_risk_appetite : string;
  sum_assured : num;
  policy_term : num;
  premium_frequency : string
}.

Record InflationForm : Type := mkInflationForm {
  initial_investment : num;
  monthly_contribution : num;
  investment_period_years : num;
  expected_return_rate : num;
  if_inflation_rate : num;
  investment_frequency : string
}.

Inductive ReportKind : Type := NeedsAnalysisReport | ComprehensiveReport.

(** The requests of the front end, indexed by the type of the response
    data.  Results that are only stored and rendered stay [JsVal]. *)
Inductive Request : Type -> Type :=
| PostCustomer (c : Customer) : Request Customer            (* POST /customers/ *)
| GetCustomer (cid : Z) : Request Customer                  (* GET /customers/{id} *)
| GetProducts : Request (list JsVal)                        (* GET /products/ *)
| GetEnhancedNeedsAnalysis (cid : Z) : Request JsVal
| GenerateRecommendations (cid : Z) : Request (list JsVal)
| PostNeedsAnalysis (input : CalculatorInput) : Request JsVal
| PostCompare (body : CompareBody) : Request JsVal          (* POST /products/compare/ *)
| GetCustomers (base : string) : Request (list ReportCustomer)
| GetPdf (base : string) (kind : ReportKind) (cid : Z) : Request JsVal
| PostInflation (base : string) (form : InflationForm) : Request JsVal
| GetMarketLatest (base : string) : Request (list JsVal)
| GetMarketTrends (base : string) : Request JsVal
| GetMarketInsights (base : string) : Request JsVal
| GetDashboard (base : string) (period : string) : Request JsVal.

(** Browser effects: the click on the generated download link. *)
Inductive Effect : Type :=
| Download (filename : jsstr) (blob : JsVal).

(** An event handler of a component with state [S]. *)
Abbreviation Handler S := (Proc Request Effect S unit) (only parsing).

(** A request made with [responseType: 'blob']: the data of an error
    response is then a [Blob], which has no [detail] property. *)
Definition as_blob_rejection (e : Exn) : Exn :=
  match e with
  | AxiosError code (Some r) =>
      AxiosError code (Some (mkErrorResponse (status r) None))
  | _ => e
  end.

Definition await_blob {S T : Type} (r : Request T) : Proc Request Effect S T :=
  Await r (fun o =>
             match o with
             | Ok d => Ret d
             | Fail e => Throw (as_blob_rejection e)
             end).

(** [apiService.createNeedsAnalysis(customerId)], for any component state. *)
Definition createNeedsAnalysis {S : Type} (customerId : Z)
  : Proc Request Effect S JsVal :=
  customer <- await (GetCustomer customerId) ;;
  let calculatorInput :=
    {| customer_id := id customer;
       calculation_type := "comprehensive";
       ci_age := age customer;
       ci_gender := gender customer;
       ci_annual_income := annual_income customer;
       ci_family_size := family_size customer;
       ci_dependents := dependents customer;
       existing_coverage :=
         or_else (opt_chain (existing_insurance customer) "total") (JsNumber 0);
       debt_obligations := 0;
       children_education_needs := 0;
       retirement_needs := 0;
       inflation_rate := 6;
       return_rate := 8 |} in
  await (PostNeedsAnalysis calculatorInput).

(** The bodies of the needs-analysis requests of a run. *)
Definition calculator_input_of {T : Type} (r : Request T)
  : option CalculatorInput :=
  match r with
  | PostNeedsAnalysis input => Some input
  | _ => None
  end.

Fixpoint posted_inputs {S : Type} (tr : list (Event Request Effect S))
  : list CalculatorInput :=
  match tr with
  | [] => []
  | Sent r _ :: rest =>
      match calculator_input_of r with
      | Some input => input :: posted_inputs rest
      | None => posted_inputs rest
      end
  | Did _ :: rest => posted_inputs rest
  end.

End Api.

(* ===================================================================== *)
(** ** App.tsx: the root component                                        *)
(* ===================================================================== *)

Module App.
Import Js Async Api.

Inductive ViewType : Type :=
| analytics_dashboard | customer | customers_360 | products
| needs_analysis | recommendations | product_comparison | pdf_reports
| inflation_calculator | market_data.

Inductive MessageType : Type := success | error.

Record State : Type := mkState {
  currentView : ViewType;
  loading : bool;
  message : option (MessageType * string);
  currentCustomerId : option Z
}.

Definition setCurrentView (v : ViewType) (s : State) : State :=
  mkState v (loading s) (message s) (currentCustomerId s).
Definition setLoading (b : bool) (s : State) : State :=
  mkState (currentView s) b (message s) (currentCustomerId s).
Definition setMessage (m : option (MessageType * string)) (s : State) : State :=
  mkState (currentView s) (loading s) m (currentCustomerId s).
Definition setCurrentCustomerId (c : option Z) (s : State) : State :=
  mkState (currentView s) (loading s) (message s) c.

Definition handleCustomerSubmit (c : Customer) : Handler State :=
  finally
    (try_catch
       (set (setLoading true) ;;
        set (setMessage None) ;;
        savedCustomer <- await (PostCustomer c) ;;
        set (setCurrentCustomerId (id savedCustomer)) ;;
        set (setMessage
               (Some (success,
                      "Customer saved successfully! Generating needs analysis..."))) ;;
        set (setCurrentView needs_analysis))
       (fun _ =>
          set (setMessage
                 (Some (error, "Failed to save customer. Please try again.")))))
    (set (setLoading false)).

End App.

(* ===================================================================== *)
(** ** components/CustomerForm.tsx                                        *)
(* ===================================================================== *)

Module CustomerForm.
Import Js JsDate Async Api.

(** [calculateAge(dob)].  [tz] is the offset of local time from UTC in
    minutes and [today] the local reading of [new Date()]. *)
Definition calculateAge (tz : Z) (today : Fields) (dob : string) : option Z :=
  if negb (nonempty dob) then None
  else
    let birthDate := new_Date tz dob in
    let age := sub (Some (getFullYear today)) (year_of birthDate) in
    let m := sub (Some (getMonth today)) (month_of birthDate) in
    let age :=
      if lt m (Some 0)
         || (strict_eq m (Some 0)
             && lt (Some (getDate today)) (date_of birthDate))
      then dec age else age in
    if ge age (Some 0) then age else None.

(** The initial draft of [useState<Partial<Customer>>]. *)
Definition initialFormData : Customer :=
  {| id := None; name := ""; email := ""; phone := ""; date_of_birth := "";
     age := None; gender := "male"; occupation := ""; annual_income := 0;
     family_size := 1; dependents := 0; existing_insurance := JsObject [];
     health_conditions := []; lifestyle_factors := [];
     risk_appetite := "low"; investment_goals := [] |}.

(** [parseInt(s)], called without a radix: leading blanks, an optional
    sign, then either the prefix [0x]/[0X] and the longest run of
    hexadecimal digits, or the longest run of decimal digits; [NaN] when
    there is no digit.  The result is the integer the digits denote, which
    is what the code returns as long as that integer is below 2^53; beyond,
    the code rounds to the nearest double. *)
Fixpoint skip_blanks (s : string) : string :=
  match s with
  | String c rest =>
      if is_space (N_of_ascii c) then skip_blanks rest else s
  | EmptyString => s
  end.

Fixpoint leading_digits (acc : Z) (seen : bool) (s : string) : num :=
  match s with
  | String c rest =>
      match digit c with
      | Some d => leading_digits (10 * acc + d) true rest
      | None => if seen then Some acc else NaN
      end
  | EmptyString => if seen then Some acc else NaN
  end.

Definition hex_digit_value (a : ascii) : option Z :=
  let n := Z.of_N (N_of_ascii a) in
  if (48 <=? n) && (n <=? 57) then Some (n - 48)
  else if (97 <=? n) && (n <=? 102) then Some (n - 87)
  else if (65 <=? n) && (n <=? 70) then Some (n - 55)
  else None.

Fixpoint leading_hex_digits (acc : Z) (seen : bool) (s : string) : num :=
  match s with
  | String c rest =>
      match hex_digit_value c with
      | Some d => leading_hex_digits (16 * acc + d) true rest
      | None => if seen then Some acc else NaN
      end
  | EmptyString => if seen then Some acc else NaN
  end.

(** The text starts with [0x] or [0X]. *)
Definition hex_prefixed (s : string) : bool :=
  match s with
  | String "0" (String x _) => Ascii.eqb x "x" || Ascii.eqb x "X"
  | _ => false
  end.

Definition drop_hex_prefix (s : string) : string :=
  match s with
  | String _ (String _ rest) => rest
  | _ => s
  end.

(** The digits after the sign. *)
Definition parseInt_magnitude (body : string) : num :=
  if hex_prefixed body
  then leading_hex_digits 0 false (drop_hex_prefix body)
  else leading_digits 0 false body.

Definition parseInt (s : string) : num :=
  match skip_blanks s with
  | String "-" rest => option_map Z.opp (parseInt_magnitude rest)
  | String "+" rest => parseInt_magnitude rest
  | t => parseInt_magnitude t
  end.

(** [parseInt(value) || 0] *)
Definition parseInt_or_0 (value : string) : Z :=
  match parseInt value with
  | Some n => n
  | None => 0
  end.

Definition with_dob (value : string) (a : option Z) (c : Customer) : Customer :=
  {| id := id c; name := name c; email := email c; phone := phone c;
     date_of_birth := value; age := a; gender := gender c;
     occupation := occupation c; annual_income := annual_income c;
     family_size := family_size c; dependents := dependents c;
     existing_insurance := existing_insurance c;
     health_conditions := health_conditions c;
     lifestyle_factors := lifestyle_factors c;
     risk_appetite := risk_appetite c;
     investment_goals := investment_goals c |}.

(** [{ ...prev, [field]: value }] for the text and select controls. *)
Definition with_text (field value : string) (c : Customer) : Customer :=
  {| id := id c;
     name := if String.eqb field "name" then value else name c;
     email := if String.eqb field "email" then value else email c;
     phone := if String.eqb field "phone" then value else phone c;
     date_of_birth := date_of_birth c; age := age c;
     gender := if String.eqb field "gender" then value else gender c;
     occupation := if String.eqb field "occupation" then value
                   else occupation c;
     annual_income := annual_income c;
     family_size := family_size c; dependents := dependents c;
     existing_insurance := existing_insurance c;
     health_conditions := health_conditions c;
     lifestyle_factors := lifestyle_factors c;
     risk_appetite := if String.eqb field "risk_appetite" then value
                      else risk_appetite c;
     investment_goals := investment_goals c |}.

(** [{ ...prev, [field]: n }] for the three numeric controls. *)
Definition with_number (field : string) (n : Z) (c : Customer) : Customer :=
  {| id := id c; name := name c; email := email c; phone := phone c;
     date_of_birth := date_of_birth c; age := age c; gender := gender c;
     occupation := occupation c;
     annual_income := if String.eqb field "annual_income" then n
                      else annual_income c;
     family_size := if String.eqb field "family_size" then n
                    else family_size c;
     dependents := if String.eqb field "dependents" then n else dependents c;
     existing_insurance := existing_insurance c;
     health_conditions := health_conditions c;
     lifestyle_factors := lifestyle_factors c;
     risk_appetite := risk_appetite c;
     investment_goals := investment_goals c |}.

(** [handleInputChange] for the event of the control called [field]; the
    controls of the form are the ten named here.  The date control gives
    [{ ...prev, date_of_birth: value, age: age ?? undefined }]. *)
Definition handleInputChange (tz : Z) (today : Fields)
  (field value : string) (prev : Customer) : Customer :=
  if String.eqb field "date_of_birth"
  then
    let age := calculateAge tz today value in
    with_dob value age prev
  else if String.eqb field "annual_income" || String.eqb field "family_size"
          || String.eqb field "dependents"
  then with_number field (parseInt_or_0 value) prev
  else with_text field value prev.

(** What the form shows under the date control: nothing while the date is
    empty, otherwise [Age: {formData.age ?? '--'}]. *)
Inductive AgeLine : Type :=
| NoAgeLine
| AgeShown (years : Z)
| AgeDashes.

Definition render_age (formData : Customer) : AgeLine :=
  if nonempty (date_of_birth formData)
  then match age formData with Some a => AgeShown a | None => AgeDashes end
  else NoAgeLine.

(** The test of [handleSubmit]. *)
Definition complete (formData : Customer) : bool :=
  nonempty (name formData) && nonempty (email formData)
  && nonempty (phone formData) && nonempty (date_of_birth formData)
  && match age formData with Some _ => true | None => false end.

(** [handleSubmit]; [onSubmit] is the prop given by the parent. *)
Definition handleSubmit {S : Type} (onSubmit : Customer -> Handler S)
  (formData : Customer) : Handler S :=
  if complete formData then onSubmit formData else ret tt.

(** The submit button: [disabled={loading}], with the flag of the parent. *)
Definition submit_disabled (loading : bool) : bool := loading.

(** A disabled submit button does not submit the form. *)
Definition click_submit {S : Type} (loading : bool)
  (onSubmit : Customer -> Handler S) (formData : Customer) : Handler S :=
  if submit_disabled loading then ret tt else handleSubmit onSubmit formData.

End CustomerForm.

(* ===================================================================== *)
(** ** components/ProductComparison.tsx                                   *)
(* ===================================================================== *)

Module ProductComparison.
Import Js Async Api.

Record State : Type := mkState {
  products : list JsVal;
  selectedProducts : list Z;
  profile_age : num;
  profile_gender : string;
  profile_annual_income : num;
  profile_risk_appetite : string;
  param_sum_assured : num;
  param_policy_term : num;
  param_premium_frequency : string;
  comparisonResult : option JsVal;
  loading : bool;
  error : option string
}.

Definition setProducts (v : list JsVal) (s : State) : State :=
  mkState v (selectedProducts s) (profile_age s) (profile_gender s)
    (profile_annual_income s) (profile_risk_appetite s) (param_sum_assured s)
    (param_policy_term s) (param_premium_frequency s) (comparisonResult s)
    (loading s) (error s).
Definition updSelectedProducts (f : list Z -> list Z) (s : State) : State :=
  mkState (products s) (f (selectedProducts s)) (profile_age s)
    (profile_gender s) (profile_annual_income s) (profile_risk_appetite s)
    (param_sum_assured s) (param_policy_term s) (param_premium_frequency s)
    (comparisonResult s) (loading s) (error s).
Definition setComparisonResult (v : option JsVal) (s : State) : State :=
  mkState (products s) (selectedProducts s) (profile_age s) (profile_gender s)
    (profile_annual_income s) (profile_risk_appetite s) (param_sum_assured s)
    (param_policy_term s) (param_premium_frequency s) v (loading s) (error s).
Definition setLoading (b : bool) (s : State) : State :=
  mkState (products s) (selectedProducts s) (profile_age s) (profile_gender s)
    (profile_annual_income s) (profile_risk_appetite s) (param_sum_assured s)
    (param_policy_term s) (param_premium_frequency s) (comparisonResult s)
    b (error s).
Definition setError (e : option string) (s : State) : State :=
  mkState (products s) (selectedProducts s) (profile_age s) (profile_gender s)
    (profile_annual_income s) (profile_risk_appetite s) (param_sum_assured s)
    (param_policy_term s) (param_premium_frequency s) (comparisonResult s)
    (loading s) e.

Definition fetchProducts : Handler State :=
  try_catch
    (data <- await GetProducts ;;
     set (setProducts data))
    (fun _ => set (setError (Some "Failed to fetch products"))).

(** [prev.includes(productId)] *)
Definition includes (productId : Z) (prev : list Z) : bool :=
  existsb (Z.eqb productId) prev.

(** The updater passed to [setSelectedProducts] by
    [handleProductSelection]. *)
Definition toggle (productId : Z) (prev : list Z) : list Z :=
  if includes productId prev
  then List.filter (fun id => negb (id =? productId)) prev
  else prev ++ [productId].

Definition handleProductSelection (productId : Z) (s : State) : State :=
  updSelectedProducts (toggle productId) s.

(** The selections a user can reach by clicking product cards. *)
Inductive reachable : list Z -> Prop :=
| reachable_initial : reachable []
| reachable_click (productId : Z) (l : list Z) :
    reachable l -> reachable (toggle productId l).

(** The object literal posted by [handleCompare], built from the render
    [s] in which the handler was created. *)
Definition compare_body (s : State) : CompareBody :=
  {| product_ids := selectedProducts s;
     cb_age := profile_age s;
     cb_gender := profile_gender s;
     cb_annual_income := profile_annual_income s;
     cb_risk_appetite := profile_risk_appetite s;
     sum_assured := param_sum_assured s;
     policy_term := param_policy_term s;
     premium_frequency := param_premium_frequency s |}.

Definition handleCompare (st : State) : Handler State :=
  if (Z.of_nat (List.length (selectedProducts st)) <? 2)
  then set (setError (Some "Please select at least 2 products to compare"))
  else
    set (setLoading true) ;;
    set (setError None) ;;
    finally
      (try_catch
         (data <- await (PostCompare (compare_body st)) ;;
          set (setComparisonResult (Some data)))
         (fun _ => set (setError (Some "Failed to compare products"))))
      (set (setLoading false)).

(** [disabled={loading || selectedProducts.length < 2}] *)
Definition compare_disabled (s : State) : bool :=
  loading s || (Z.of_nat (List.length (selectedProducts s)) <? 2).

(** A click reaches [onClick] only on an enabled button. *)
Definition click_compare (s : State) : Handler State :=
  if compare_disabled s then ret tt else handleCompare s.

(** [{error && <div>...{error}</div>}] *)
Definition error_panel (s : State) : option string :=
  match error s with
  | Some e => if nonempty e then Some e else None
  | None => None
  end.

End ProductComparison.

(* ===================================================================== *)
(** ** components/PDFReports.tsx                                          *)
(* ===================================================================== *)

Module PDFReports.
Import Js JsDate Async Api.

Record State : Type := mkState {
  customers : list ReportCustomer;
  selectedCustomer : option Z;
  loading : bool;
  error : option string;
  success : option string
}.

Definition setCustomers (v : list ReportCustomer) (s : State) : State :=
  mkState v (selectedCustomer s) (loading s) (error s) (success s).
Definition setSelectedCustomer (v : option Z) (s : State) : State :=
  mkState (customers s) v (loading s) (error s) (success s).
Definition setLoading (b : bool) (s : State) : State :=
  mkState (customers s) (selectedCustomer s) b (error s) (success s).
Definition setError (e : option string) (s : State) : State :=
  mkState (customers s) (selectedCustomer s) (loading s) e (success s).
Definition setSuccess (m : option string) (s : State) : State :=
  mkState (customers s) (selectedCustomer s) (loading s) (error s) m.

Definition fetchCustomers (apiBaseUrl : string) : Handler State :=
  finally
    (try_catch
       (set (setLoading true) ;;
        data <- await (GetCustomers apiBaseUrl) ;;
        set (setCustomers data))
       (fun _ => set (setError (Some "Failed to fetch customers"))))
    (set (setLoading false)).

(** [s.replace('-', ' ')]: the first hyphen only. *)
Fixpoint replace_first_hyphen (s : string) : string :=
  match s with
  | EmptyString => EmptyString
  | String c rest =>
      if Ascii.eqb c "-" then String " " rest
      else String c (replace_first_hyphen rest)
  end.

(** [customer ? customer.name.replace(/\s+/g, '_') : 'customer'] with
    [customer = customers.find(c => c.id === selectedCustomer)]. *)
Definition customerName (cs : list ReportCustomer) (selected : Z) : jsstr :=
  match List.find (fun c => rc_id c =? selected) cs with
  | Some c => replace_spaces (rc_name c)
  | None => lit "customer"
  end.

(** [new Date().toISOString().split('T')[0]] *)
Definition timestamp (now : UTC) : jsstr :=
  before_first (N_of_ascii "T") (toISOString now).

Definition download_name (reportType : string) (cs : list ReportCustomer)
  (selected : Z) (now : UTC) : jsstr :=
  if String.eqb reportType "needs-analysis"
  then lit "needs_analysis_" ++ customerName cs selected ++ lit "_"
       ++ timestamp now ++ lit ".pdf"
  else lit "comprehensive_report_" ++ customerName cs selected ++ lit "_"
       ++ timestamp now ++ lit ".pdf".

(** [generatePDF(reportType)], created in the render [st]; [now] is what
    the clock reads when the response has arrived. *)
Definition generatePDF (apiBaseUrl : string) (now : UTC) (st : State)
  (reportType : string) : Handler State :=
  match selectedCustomer st with
  | None => ret tt
  | Some selected =>
      if selected =? 0 then ret tt      (* [!selectedCustomer] *)
      else
        finally
          (try_catch
             (set (setLoading true) ;;
              set (setError None) ;;
              set (setSuccess None) ;;
              data <- (if String.eqb reportType "needs-analysis"
                       then await_blob (GetPdf apiBaseUrl NeedsAnalysisReport selected)
                       else if String.eqb reportType "comprehensive"
                       then await_blob (GetPdf apiBaseUrl ComprehensiveReport selected)
                       else throw (JsError "Invalid report type")) ;;
              perform (Download
                         (download_name reportType (customers st) selected now)
                         data) ;;
              set (setSuccess
                     (Some (replace_first_hyphen reportType
                            ++ " PDF generated successfully!")%string)))
             (fun err =>
                set (setError
                       (Some (detail_or (response_detail err)
                                        "Failed to generate PDF")))))
          (set (setLoading false))
  end.

(** The argument each of the two buttons passes to [generatePDF]. *)
Definition button_report_type (k : ReportKind) : string :=
  match k with
  | NeedsAnalysisReport => "needs-analysis"
  | ComprehensiveReport => "comprehensive"
  end.

(** Both generate buttons: [disabled={loading}], and they are rendered only
    under [selectedCustomer &&]. *)
Definition generate_disabled (s : State) : bool := loading s.

Definition click_generate (apiBaseUrl : string) (now : UTC) (s : State)
  (reportType : string) : Handler State :=
  if generate_disabled s then ret tt
  else generatePDF apiBaseUrl now s reportType.

Definition error_panel (s : State) : option string :=
  match error s with
  | Some e => if nonempty e then Some e else None
  | None => None
  end.

End PDFReports.

(* ===================================================================== *)
(** ** Views that load on mount or on refresh                             *)
(* ===================================================================== *)

(** The three exclusive renderings of a loading view. *)
Inductive Panel : Type :=
| LoadingIndicator
| ErrorPanel (text : string)
| Content.

Module MarketData.
Import Js Async Api.

Record State : Type := mkState {
  marketData : list JsVal;
  trends : option JsVal;
  insights : option JsVal;
  loading : bool;
  error : option string
}.

Definition initial : State := mkState [] None None true None.

Definition setMarketData (v : list JsVal) (s : State) : State :=
  mkState v (trends s) (insights s) (loading s) (error s).
Definition setTrends (v : option JsVal) (s : State) : State :=
  mkState (marketData s) v (insights s) (loading s) (error s).
Definition setInsights (v : option JsVal) (s : State) : State :=
  mkState (marketData s) (trends s) v (loading s) (error s).
Definition setLoading (b : bool) (s : State) : State :=
  mkState (marketData s) (trends s) (insights s) b (error s).
Definition setError (e : option string) (s : State) : State :=
  mkState (marketData s) (trends s) (insights s) (loading s) e.

Definition fetchMarketData (apiBaseUrl : string) : Handler State :=
  finally
    (try_catch
       (set (setLoading true) ;;
        set (setError None) ;;
        latest <- await (GetMarketLatest apiBaseUrl) ;;
        set (setMarketData latest) ;;
        trendsData <- await (GetMarketTrends apiBaseUrl) ;;
        set (setTrends (Some trendsData)) ;;
        insightsData <- await (GetMarketInsights apiBaseUrl) ;;
        set (setInsights (Some insightsData)))
       (fun _ =>
          set (setError
                 (Some "Failed to fetch market data. Please try again later."))))
    (set (setLoading false)).

Definition render (s : State) : Panel :=
  if loading s then LoadingIndicator
  else match error s with
       | Some e => if nonempty e then ErrorPanel e else Content
       | None => Content
       end.

(** The Refresh button belongs to the content. *)
Definition refresh_available (s : State) : bool :=
  match render s with Content => true | _ => false end.

Definition click_refresh (apiBaseUrl : string) (s : State) : Handler State :=
  if refresh_available s then fetchMarketData apiBaseUrl else ret tt.

End MarketData.

Module AnalyticsDashboard.
Import Js Async Api.

Record State : Type := mkState {
  metrics : option JsVal;
  loading : bool;
  error : option string;
  selectedPeriod : string
}.

Definition setMetrics (v : option JsVal) (s : State) : State :=
  mkState v (loading s) (error s) (selectedPeriod s).
Definition setLoading (b : bool) (s : State) : State :=
  mkState (metrics s) b (error s) (selectedPeriod s).
Definition setError (e : option string) (s : State) : State :=
  mkState (metrics s) (loading s) e (selectedPeriod s).

Definition fetchDashboardData (apiBaseUrl : string) (st : State)
  : Handler State :=
  finally
    (try_catch
       (set (setLoading true) ;;
        set (setError None) ;;
        data <- await (GetDashboard apiBaseUrl (selectedPeriod st)) ;;
        set (setMetrics (Some data)))
       (fun _ =>
          set (setError
                 (Some "Failed to fetch dashboard data. Please try again."))))
    (set (setLoading false)).

Definition render (s : State) : Panel :=
  if loading s then LoadingIndicator
  else match error s with
       | Some e => if nonempty e then ErrorPanel e else Content
       | None => Content
       end.

(** Retry sits in the error panel and Refresh in the content; neither is
    part of the loading skeleton. *)
Definition refetch_available (s : State) : bool :=
  match render s with LoadingIndicator => false | _ => true end.

Definition click_refetch (apiBaseUrl : string) (s : State) : Handler State :=
  if refetch_available s then fetchDashboardData apiBaseUrl s else ret tt.

End AnalyticsDashboard.

Module ProductsList.
Import Js Async Api.

Record State : Type := mkState {
  products : list JsVal;
  loading : bool;
  error : option string
}.

Definition setProducts (v : list JsVal) (s : State) : State :=
  mkState v (loading s) (error s).
Definition setLoading (b : bool) (s : State) : State :=
  mkState (products s) b (error s).
Definition setError (e : option string) (s : State) : State :=
  mkState (products s) (loading s) e.

Definition fetchProducts : Handler State :=
  finally
    (try_catch
       (set (setLoading true) ;;
        data <- await GetProducts ;;
        set (setProducts data))
       (fun _ => set (setError (Some "Failed to fetch products"))))
    (set (setLoading false)).

Definition render (s : State) : Panel :=
  if loading s then LoadingIndicator
  else match error s with
       | Some e => if nonempty e then ErrorPanel e else Content
       | None => Content
       end.

End ProductsList.

Module Recommendations.
Import Js Async Api.

Record State : Type := mkState {
  recommendations : list JsVal;
  loading : bool;
  error : option string
}.

Definition setRecommendations (v : list JsVal) (s : State) : State :=
  mkState v (loading s) (error s).
Definition setLoading (b : bool) (s : State) : State :=
  mkState (recommendations s) b (error s).
Definition setError (e : option string) (s : State) : State :=
  mkState (recommendations s) (loading s) e.

Definition fetchRecommendations (customerId : Z) : Handler State :=
  finally
    (try_catch
       (set (setLoading true) ;;
        data <- await (GenerateRecommendations customerId) ;;
        set (setRecommendations data))
       (fun _ => set (setError (Some "Failed to fetch recommendations"))))
    (set (setLoading false)).

Definition render (s : State) : Panel :=
  if loading s then LoadingIndicator
  else match error s with
       | Some e => if nonempty e then ErrorPanel e else Content
       | None => Content
       end.

End Recommendations.

Module NeedsAnalysis.
Import Js Async Api.

Record State : Type := mkState {
  data : option JsVal;
  loading : bool;
  error : option string
}.

Definition setData (v : option JsVal) (s : State) : State :=
  mkState v (loading s) (error s).
Definition setLoading (b : bool) (s : State) : State :=
  mkState (data s) b (error s).
Definition setError (e : option string) (s : State) : State :=
  mkState (data s) (loading s) e.

(** The first [try] has an empty [catch]: a failed creation is ignored. *)
Definition createAndFetchNeedsAnalysis (customerId : Z) : Handler State :=
  try_catch
    (set (setLoading true) ;;
     _ <- createNeedsAnalysis customerId ;;
     ret tt)
    (fun _ => ret tt) ;;
  finally
    (try_catch
       (result <- await (GetEnhancedNeedsAnalysis customerId) ;;
        set (setData (Some result)))
       (fun _ => set (setError (Some "Failed to fetch needs analysis"))))
    (set (setLoading false)).

(** [if (error || !data)] shows [error || 'Failed to load needs analysis']. *)
Definition render (s : State) : Panel :=
  if loading s then LoadingIndicator
  else
    let has_error := match error s with
                     | Some e => nonempty e
                     | None => false
                     end in
    let has_data := match data s with
                    | Some d => truthy d
                    | None => false
                    end in
    if has_error || negb has_data
    then ErrorPanel (detail_or (error s) "Failed to load needs analysis")
    else Content.

End NeedsAnalysis.

Module InflationCalculator.
Import Js Async Api.

Record State : Type := mkState {
  formData : InflationForm;
  result : option JsVal;
  loading : bool;
  error : option string
}.

Definition setResult (v : option JsVal) (s : State) : State :=
  mkState (formData s) v (loading s) (error s).
Definition setLoading (b : bool) (s : State) : State :=
  mkState (formData s) (result s) b (error s).
Definition setError (e : option string) (s : State) : State :=
  mkState (formData s) (result s) (loading s) e.

Definition handleSubmit (apiBaseUrl : string) (st : State) : Handler State :=
  set (setLoading true) ;;
  set (setError None) ;;
  finally
    (try_catch
       (data <- await (PostInflation apiBaseUrl (formData st)) ;;
        set (setResult (Some data)))
       (fun _ =>
          set (setError
                 (Some "Failed to calculate inflation-adjusted returns. Please try again."))))
    (set (setLoading false)).

(** [disabled={loading}] on the submit button. *)
Definition submit_disabled (s : State) : bool := loading s.

Definition click_submit (apiBaseUrl : string) (s : State) : Handler State :=
  if submit_disabled s then ret tt else handleSubmit apiBaseUrl s.

Definition error_panel (s : State) : option string :=
  match error s with
  | Some e => if nonempty e then Some e else None
  | None => None
  end.

End InflationCalculator.

(* ===================================================================== *)
(** ** Notions of the specification                                       *)
(* ===================================================================== *)

Module Spec.
Import Js JsDate.

(** "The current month/day falls before the birth month/day"; the birth
    month counts from 1, [getMonth] from 0. *)
Definition before_birthday (today : Fields) (birth : Z * Z * Z) : bool :=
  let '(_, bm, bd) := birth in
  (getMonth today + 1 <? bm)
  || ((getMonth today + 1 =? bm) && (getDate today <? bd)).

(** "The difference of the calendar years, decremented by one exactly when
    the current month/day falls before the birth month/day." *)
Definition completed_years (today : Fields) (birth : Z * Z * Z) : Z :=
  let '(by_, _, _) := birth in
  getFullYear today - by_ - (if before_birthday today birth then 1 else 0).

(** The birth date as the local getters return it: the day that was
    entered east of Greenwich, the day before west of it. *)
Definition local_birth (tz : Z) (ymd : Z * Z * Z) : Z * Z * Z :=
  if tz <? 0 then prev_day ymd else ymd.

(** Calendar order on (year, month, day). *)
Definition date_le (a b : Z * Z * Z) : Prop :=
  let '(ya, ma, da) := a in
  let '(yb, mb, db) := b in
  ya < yb \/ (ya = yb /\ (ma < mb \/ (ma = mb /\ da <= db))).

Definition date_lt (a b : Z * Z * Z) : Prop := ~ date_le b a.

Definition today_ymd (today : Fields) : Z * Z * Z :=
  (getFullYear today, getMonth today + 1, getDate today).

(** The [k]-th anniversary of a birth date. *)
Definition anniversary (birth : Z * Z * Z) (k : Z) : Z * Z * Z :=
  let '(y, m, d) := birth in (y + k, m, d).

(** "Every whitespace run replaced by a single underscore", said with runs:
    the string is cut into maximal runs of white space and of other code
    units, and each white run becomes one underscore. *)
Fixpoint runs (s : jsstr) : list (bool * jsstr) :=
  match s with
  | [] => []
  | c :: rest =>
      match runs rest with
      | (w, r) :: more =>
          if Bool.eqb w (is_space c) then (w, c :: r) :: more
          else (is_space c, [c]) :: (w, r) :: more
      | [] => [(is_space c, [c])]
      end
  end.

(** Neighbouring runs are of different kinds. *)
Fixpoint alternating (l : list (bool * jsstr)) : Prop :=
  match l with
  | a :: (b :: _) as rest => fst a <> fst b /\ alternating rest
  | _ => True
  end.

Definition squash_run (r : bool * jsstr) : jsstr :=
  if fst r then [underscore] else snd r.

Definition underscore_runs (s : jsstr) : jsstr :=
  List.concat (List.map squash_run (runs s)).

(** The text of the error panel, when that is what a view shows. *)
Definition error_text (p : Panel) : option string :=
  match p with
  | ErrorPanel text => Some text
  | _ => None
  end.

(** The file-name prefix of each report kind. *)
Definition report_prefix (k : Api.ReportKind) : jsstr :=
  match k with
  | Api.NeedsAnalysisReport => lit "needs_analysis_"
  | Api.ComprehensiveReport => lit "comprehensive_report_"
  end.

(** [c] is the customer the selected id denotes: the first of the loaded
    list with that id. *)
Definition selected_customer (cs : list Api.ReportCustomer) (selected : Z)
  (c : Api.ReportCustomer) : Prop :=
  exists before after : list Api.ReportCustomer,
    cs = before ++ c :: after
    /\ Api.rc_id c = selected
    /\ forall x, In x before -> Api.rc_id x <> selected.

Definition not_loaded (cs : list Api.ReportCustomer) (selected : Z) : Prop :=
  forall x, In x cs -> Api.rc_id x <> selected.

(** The date part [YYYY-MM-DD] of an instant. *)
Definition iso_date (t : UTC) : jsstr :=
  pad 4 (utcYear t) ++ lit "-" ++ pad 2 (utcMonth t) ++ lit "-"
  ++ pad 2 (utcDay t).

End Spec.

(* ===================================================================== *)
(** ** Sample data and backends                                           *)
(* ===================================================================== *)

Module Samples.
Import Js JsDate Async Api.

Definition asha : Customer :=
  {| id := None; name := "Asha Rao"; email := "asha@example.org";
     phone := "9800000000"; date_of_birth := "1990-08-20"; age := Some 33;
     gender := "female"; occupation := "engineer"; annual_income := 1200000;
     family_size := 3; dependents := 1;
     existing_insurance := JsObject [("total", JsNumber 500000)];
     health_conditions := []; lifestyle_factors := [];
     risk_appetite := "medium"; investment_goals := [] |}.

Definition saved (c : Customer) (n : Z) : Customer :=
  {| id := Some n; name := name c; email := email c; phone := phone c;
     date_of_birth := date_of_birth c; age := age c; gender := gender c;
     occupation := occupation c; annual_income := annual_income c;
     family_size := family_size c; dependents := dependents c;
     existing_insurance := existing_insurance c;
     health_conditions := health_conditions c;
     lifestyle_factors := lifestyle_factors c;
     risk_appetite := risk_appetite c;
     investment_goals := investment_goals c |}.

(** A customer whose insurance record has a [total] that was left blank. *)
Definition blank_total : Customer :=
  {| id := Some 12; name := "Bela Nair"; email := "bela@example.org";
     phone := "9811111111"; date_of_birth := "1985-01-02"; age := Some 39;
     gender := "female"; occupation := "teacher"; annual_income := 700000;
     family_size := 2; dependents := 0;
     existing_insurance := JsObject [("total", JsString "")];
     health_conditions := []; lifestyle_factors := [];
     risk_appetite := "low"; investment_goals := [] |}.

(** A backend whose customer 12 is [blank_total]. *)
Definition serves_blank_total : Backend Request :=
  fun T r =>
    match r in Request T return Outcome T with
    | GetCustomer _ => Ok blank_total
    | PostNeedsAnalysis _ => Ok (JsObject [])
    | _ => Fail (AxiosError "ERR_BAD_REQUEST" None)
    end.

Definition report_customers : list ReportCustomer :=
  [ mkReportCustomer 7 (lit "Asha  Rao") "asha@example.org" 33 1200000 3;
    mkReportCustomer 8 (lit "Vikram Seth") "vikram@example.org" 41 900000 4 ].

Definition noon : UTC := mkUTC 2024 6 15 12 30 0 0.

Definition pdf_bytes : JsVal := JsString "%PDF-1.4".

(** A backend that answers every request. *)
Definition healthy : Backend Request :=
  fun T r =>
    match r in Request T return Outcome T with
    | PostCustomer c => Ok (saved c 7)
    | GetCustomer cid => Ok (saved asha cid)
    | GetProducts => Ok [JsNumber 1; JsNumber 2]
    | GetEnhancedNeedsAnalysis _ => Ok (JsObject [])
    | GenerateRecommendations _ => Ok [JsObject []]
    | PostNeedsAnalysis _ => Ok (JsObject [])
    | PostCompare _ => Ok (JsObject [])
    | GetCustomers _ => Ok report_customers
    | GetPdf _ _ _ => Ok pdf_bytes
    | PostInflation _ _ => Ok (JsObject [])
    | GetMarketLatest _ => Ok [JsNumber 1]
    | GetMarketTrends _ => Ok (JsObject [])
    | GetMarketInsights _ => Ok (JsObject [])
    | GetDashboard _ _ => Ok (JsObject [])
    end.

(** A backend that rejects every request with the same error. *)
Definition down (e : Exn) : Backend Request := fun T _ => Fail e.

Definition server_error (d : option string) : Exn :=
  AxiosError "ERR_BAD_RESPONSE" (Some (mkErrorResponse 500 d)).

Definition timed_out : Exn := AxiosError "ECONNABORTED" None.

(** A backend on which only the latest market data can be fetched. *)
Definition trends_down : Backend Request :=
  fun T r =>
    match r in Request T return Outcome T with
    | GetMarketLatest _ => Ok [JsNumber 1]
    | GetMarketTrends _ => Fail timed_out
    | GetMarketInsights _ => Fail timed_out
    | other => healthy other
    end.

(** Component states to start from. *)
Definition customer_state : App.State :=
  App.mkState App.customer false None None.

Definition comparison_state (selected : list Z) : ProductComparison.State :=
  ProductComparison.mkState [] selected (Some 30) "male" (Some 1000000)
    "medium" (Some 5000000) (Some 20) "yearly" None false None.

Definition reports_state (selected : option Z) : PDFReports.State :=
  PDFReports.mkState report_customers selected false None None.

Definition market_state : MarketData.State :=
  MarketData.mkState [JsNumber 0] None None false None.

Definition products_state : ProductsList.State :=
  ProductsList.mkState [] true None.

End Samples.

(* ===================================================================== *)
(** ** CustomerForm: the drafts a user can produce                        *)
(* ===================================================================== *)

Module Drafts.
Import Js JsDate Api CustomerForm.

(** The drafts reachable from the initial one by input events; every event
    reads the clock anew. *)
Inductive reachable_draft : Customer -> Prop :=
| draft_initial : reachable_draft initialFormData
| draft_change (tz : Z) (today : Fields) (field value : string)
    (prev : Customer) :
    reachable_draft prev ->
    reachable_draft (handleInputChange tz today field value prev).

Fixpoint all_digits (s : string) : bool :=
  match s with
  | EmptyString => true
  | String c rest =>
      match digit c with
      | Some _ => all_digits rest
      | None => false
      end
  end.

Definition starts_with_digit (s : string) : bool :=
  match s with
  | String c _ => match digit c with Some _ => true | None => false end
  | EmptyString => false
  end.

End Drafts.

(* ===================================================================== *)
(** ** components/ShareButton.tsx: the fallback links                     *)
(* ===================================================================== *)

Module ShareButton.
Import Js.

(** The characters [encodeURIComponent] leaves alone: letters, digits and
    [- _ . ! ~ * ' ( )]. *)
Definition unreserved (c : N) : bool :=
  (((65 <=? c) && (c <=? 90)) || ((97 <=? c) && (c <=? 122))
   || ((48 <=? c) && (c <=? 57))
   || (c =? 45) || (c =? 95) || (c =? 46) || (c =? 33) || (c =? 126)
   || (c =? 42) || (c =? 39) || (c =? 40) || (c =? 41))%N.

Definition hex_digit (n : N) : N :=
  (if n <? 10 then 48 + n else 55 + n)%N.

(** [%XX], in upper-case hexadecimal. *)
Definition percent (byte : N) : jsstr :=
  [37%N; hex_digit (byte / 16); hex_digit (byte mod 16)].

(** The UTF-8 bytes of a code point. *)
Definition utf8 (cp : N) : list N :=
  (if cp <? 128 then [cp]
   else if cp <? 2048 then [192 + cp / 64; 128 + cp mod 64]
   else if cp <? 65536
   then [224 + cp / 4096; 128 + (cp / 64) mod 64; 128 + cp mod 64]
   else [240 + cp / 262144; 128 + (cp / 4096) mod 64;
         128 + (cp / 64) mod 64; 128 + cp mod 64])%N.

Definition is_high_surrogate (c : N) : bool :=
  ((55296 <=? c) && (c <=? 56319))%N.
Definition is_low_surrogate (c : N) : bool :=
  ((56320 <=? c) && (c <=? 57343))%N.

Definition escape (cp : N) : jsstr := List.concat (List.map percent (utf8 cp)).

(** [encodeURIComponent(s)]; [None] is the [URIError] thrown on a surrogate
    that has no partner. *)
Fixpoint encodeURIComponent (s : jsstr) : option jsstr :=
  match s with
  | [] => Some []
  | c :: rest =>
      if unreserved c then option_map (cons c) (encodeURIComponent rest)
      else if is_low_surrogate c then None
      else if is_high_surrogate c then
        match rest with
        | d :: rest' =>
            if is_low_surrogate d
            then option_map
                   (app (escape (65536 + (c - 55296) * 1024 + (d - 56320))%N))
                   (encodeURIComponent rest')
            else None
        | [] => None
        end
      else option_map (app (escape c)) (encodeURIComponent rest)
  end.

(** [shareText + ' ' + shareUrl] *)
Definition message (shareText shareUrl : jsstr) : jsstr :=
  shareText ++ lit " " ++ shareUrl.

Definition whatsappUrl (shareText shareUrl : jsstr) : option jsstr :=
  option_map (app (lit "https://wa.me/?text="))
    (encodeURIComponent (message shareText shareUrl)).

(** [customerEmail || ''] *)
Definition recipient (customerEmail : option jsstr) : jsstr :=
  match customerEmail with
  | Some e => e
  | None => []
  end.

Definition emailUrl (customerEmail : option jsstr) (shareText shareUrl : jsstr)
  : option jsstr :=
  option_map
    (app (lit "mailto:" ++ recipient customerEmail
          ++ lit "?subject=Insurance Report&body="))
    (encodeURIComponent (message shareText shareUrl)).

Definition smsUrl (shareText shareUrl : jsstr) : option jsstr :=
  option_map (app (lit "sms:?body="))
    (encodeURIComponent (message shareText shareUrl)).

(** What an encoded query value consists of. *)
Definition query_safe (c : N) : Prop := unreserved c = true \/ c = 37%N.

End ShareButton.

(* ===================================================================== *)
(** ** App.tsx: the menu and the content area                             *)
(* ===================================================================== *)

Module Shell.
Import App.

Record MenuItem : Type := mkMenuItem {
  item_id : ViewType;
  label : string;
  icon : string;
  description : string;
  category : string
}.

Definition menuItems : list MenuItem :=
  [ mkMenuItem analytics_dashboard "Analytics Dashboard" "📊"
      "View business insights and performance metrics" "analytics";
    mkMenuItem customers_360 "Customers 360°" "👥"
      "Comprehensive customer management and insights" "main";
    mkMenuItem customer "New Customer" "➕"
      "Add a new customer to the system" "customer";
    mkMenuItem products "Products Catalog" "📋"
      "Browse available insurance products" "main";
    mkMenuItem product_comparison "Compare Products" "⚖️"
      "Compare different insurance products side by side" "tools";
    mkMenuItem pdf_reports "PDF Reports" "📄"
      "Generate and download PDF reports" "tools";
    mkMenuItem inflation_calculator "Inflation Calculator" "🧮"
      "Calculate inflation-adjusted returns" "tools";
    mkMenuItem market_data "Market Data" "📈"
      "View market trends and data" "analytics" ].

Definition view_index (v : ViewType) : nat :=
  match v with
  | analytics_dashboard => 0 | customer => 1 | customers_360 => 2
  | products => 3 | needs_analysis => 4 | recommendations => 5
  | product_comparison => 6 | pdf_reports => 7 | inflation_calculator => 8
  | market_data => 9
  end.

(** [a === b] on view names. *)
Definition view_eqb (a b : ViewType) : bool :=
  Nat.eqb (view_index a) (view_index b).

(** [menuItems.find(item => item.id === currentView) || menuItems[0]] *)
Definition getCurrentMenuItem (currentView : ViewType) : MenuItem :=
  match List.find (fun item => view_eqb (item_id item) currentView) menuItems with
  | Some item => item
  | None =>
      List.hd (mkMenuItem analytics_dashboard "" "" "" "") menuItems
  end.

Definition getMenuItemsByCategory (c : string) : list MenuItem :=
  List.filter (fun item => String.eqb (category item) c) menuItems.

(** What the content area holds.  [currentCustomerId && (...)] is the
    element for a truthy id, nothing for [null], and the number itself,
    printed as text, for the id 0. *)
Inductive Content : Type :=
| Customer360View
| CustomerFormView (loading : bool)
| ProductsListView
| ProductComparisonView
| PDFReportsView
| NeedsAnalysisView (customerId : Z)
| InflationCalculatorView
| MarketDataView
| AnalyticsDashboardView
| RecommendationsView (customerId : Z)
| ZeroText
| Nothing.

Definition guarded (c : option Z) (view : Z -> Content) : Content :=
  match c with
  | None => Nothing
  | Some n => if n =? 0 then ZeroText else view n
  end.

(** The chain of conditionals on [currentView]; its last branch is taken
    by the recommendations view. *)
Definition content (s : State) : Content :=
  match currentView s with
  | customers_360 => Customer360View
  | customer => CustomerFormView (loading s)
  | products => ProductsListView
  | product_comparison => ProductComparisonView
  | pdf_reports => PDFReportsView
  | needs_analysis => guarded (currentCustomerId s) NeedsAnalysisView
  | inflation_calculator => InflationCalculatorView
  | market_data => MarketDataView
  | analytics_dashboard => AnalyticsDashboardView
  | recommendations => guarded (currentCustomerId s) RecommendationsView
  end.

End Shell.

(* ===================================================================== *)
(** ** InflationCalculator: the form fields                               *)
(* ===================================================================== *)

Module InflationInput.
Import Js.

Fixpoint starts_with (p s : string) : bool :=
  match p, s with
  | EmptyString, _ => true
  | String a p', String b s' => Ascii.eqb a b && starts_with p' s'
  | String _ _, EmptyString => false
  end.

(** [hay.includes(needle)] *)
Fixpoint includes (needle hay : string) : bool :=
  starts_with needle hay
  || match hay with
     | String _ rest => includes needle rest
     | EmptyString => false
     end.

Section WithFloats.

(** The numbers [parseFloat] produces are left abstract. *)
Variable F : Type.
Variable parseFloat : string -> F.

Inductive FieldValue : Type :=
| TextValue (s : string)
| NumberValue (n : num)
| FloatValue (x : F).

(** The properties of [formData], in order. *)
Definition FormData : Type := list (string * FieldValue).

Definition initialFormData : FormData :=
  [ ("initial_investment", NumberValue (Some 100000));
    ("monthly_contribution", NumberValue (Some 10000));
    ("investment_period_years", NumberValue (Some 20));
    ("expected_return_rate", NumberValue (Some 8));
    ("inflation_rate", NumberValue (Some 6));
    ("investment_frequency", TextValue "monthly") ].

Fixpoint get (k : string) (d : FormData) : option FieldValue :=
  match d with
  | [] => None
  | (k', v) :: rest => if String.eqb k k' then Some v else get k rest
  end.

(** [{ ...prev, [k]: v }]: an existing property keeps its place. *)
Fixpoint assign (k : string) (v : FieldValue) (d : FormData) : FormData :=
  match d with
  | [] => [(k, v)]
  | (k', v') :: rest =>
      if String.eqb k k' then (k, v) :: rest else (k', v') :: assign k v rest
  end.

(** [handleInputChange]: every control, the select included, goes through
    [parseFloat] or [parseInt]. *)
Definition handleInputChange (name value : string) (prev : FormData) : FormData :=
  assign name
    (if includes "rate" name || includes "years" name
     then FloatValue (parseFloat value)
     else NumberValue (CustomerForm.parseInt value))
    prev.

End WithFloats.

(** The options of the frequency select. *)
Definition frequency_options : list string :=
  ["monthly"; "quarterly"; "yearly"].

End InflationInput.

Module MoreSamples.
Import Js Async Api.

(** A backend on which no customer can be fetched although the analysis
    for display is served. *)
Definition creation_down : Backend Request :=
  fun T r =>
    match r in Request T return Outcome T with
    | GetEnhancedNeedsAnalysis _ => Ok (JsObject [("customer", JsObject [])])
    | _ => Fail Samples.timed_out
    end.

End MoreSamples.

(** Case analysis on the next answer of the backend. *)
Ltac backend_answers :=
  repeat (cbn;
          match goal with
          | |- context [match ?x with Async.Ok _ => _ | Async.Fail _ => _ end] =>
              let E := fresh "Eanswer" in destruct x eqn:E
          end);
  cbn.

(** Evaluation of a run along the answers given as hypotheses. *)
Ltac run_given :=
  unfold Async.final_state, Async.trace, Async.outcome;
  repeat (cbn;
          match goal with
          | H : ?b _ ?r = _ |- context [?b _ ?r] => rewrite H
          end);
  cbn.

Ltac run_handler :=
  unfold Async.final_state, Async.trace, Async.outcome;
  backend_answers.

(** After the case analysis of a run: every in-flight state has the flag
    set, and a run that issued a request ends with the flag cleared. *)
Ltac busy_then_cleared :=
  split;
  [ repeat constructor
  | let H := fresh "Hsent" in
    intros H; first [reflexivity | exfalso; apply H; reflexivity] ].

Unset Implicit Arguments.

(* ===================================================================== *)
(** ** The combinators against their JavaScript reading                   *)
(* ===================================================================== *)

Section ProcLaws.
Import Async.

Variable Req : Type -> Type.
Variables Eff S : Type.
Variable b : Backend Req.

(** Sequencing: the second part runs in the state the first one left, unless
    the first one threw. *)
Lemma run_bind (A B : Type) (p : Proc Req Eff S A)
  (f : A -> Proc Req Eff S B) (s : S) :
  run b (bind p f) s
  = match run b p s with
    | (s1, tr1, inl a) =>
        let '(s2, tr2, res) := run b (f a) s1 in (s2, tr1 ++ tr2, res)
    | (s1, tr1, inr e) => (s1, tr1, inr e)
    end.
Proof.
  revert s. induction p as [a | e | g k IH | ev k IH | T r k IH]; intros s; cbn.
  - destruct (run b (f a) s) as [[s2 tr2] res]. reflexivity.
  - reflexivity.
  - apply IH.
  - rewrite IH. destruct (run b k s) as [[s1 tr1] [a | e]]; [| reflexivity].
    destruct (run b (f a) s1) as [[s2 tr2] res]. reflexivity.
  - rewrite IH.
    destruct (run b (k (b T r)) s) as [[s1 tr1] [a | e]]; [| reflexivity].
    destruct (run b (f a) s1) as [[s2 tr2] res]. reflexivity.
Qed.

(** [catch]: the handler runs exactly when the body threw, in the state the
    body had reached. *)
Lemma run_try_catch (A : Type) (p : Proc Req Eff S A)
  (h : Exn -> Proc Req Eff S A) (s : S) :
  run b (try_catch p h) s
  = match run b p s with
    | (s1, tr1, inl a) => (s1, tr1, inl a)
    | (s1, tr1, inr e) =>
        let '(s2, tr2, res) := run b (h e) s1 in (s2, tr1 ++ tr2, res)
    end.
Proof.
  revert s. induction p as [a | e | g k IH | ev k IH | T r k IH]; intros s; cbn.
  - reflexivity.
  - destruct (run b (h e) s) as [[s2 tr2] res]. reflexivity.
  - apply IH.
  - rewrite IH. destruct (run b k s) as [[s1 tr1] [a | e]]; [reflexivity |].
    destruct (run b (h e) s1) as [[s2 tr2] res]. reflexivity.
  - rewrite IH.
    destruct (run b (k (b T r)) s) as [[s1 tr1] [a | e]]; [reflexivity |].
    destruct (run b (h e) s1) as [[s2 tr2] res]. reflexivity.
Qed.

(** [finally]: the last block runs on both exits, and the exit of the body
    is kept unless the block itself throws. *)
Lemma run_finally (A : Type) (p : Proc Req Eff S A)
  (q : Proc Req Eff S unit) (s : S) :
  run b (finally p q) s
  = let '(s1, tr1, res) := run b p s in
    match run b q s1 with
    | (s2, tr2, inl _) => (s2, tr1 ++ tr2, res)
    | (s2, tr2, inr e) => (s2, tr1 ++ tr2, inr e)
    end.
Proof.
  revert s. induction p as [a | e | g k IH | ev k IH | T r k IH]; intros s; cbn.
  - rewrite run_bind. destruct (run b q s) as [[s2 tr2] [[] | e]]; cbn;
      rewrite ?app_nil_r; reflexivity.
  - rewrite run_bind. destruct (run b q s) as [[s2 tr2] [[] | e']]; cbn;
      rewrite ?app_nil_r; reflexivity.
  - apply IH.
  - rewrite IH. destruct (run b k s) as [[s1 tr1] res].
    destruct (run b q s1) as [[s2 tr2] [[] | e]]; reflexivity.
  - rewrite IH. destruct (run b (k (b T r)) s) as [[s1 tr1] res].
    destruct (run b q s1) as [[s2 tr2] [[] | e]]; reflexivity.
Qed.

(** [await]: one request, in flight in the current state. *)
Lemma run_await (T : Type) (r : Req T) (s : S) :
  run b (await (Eff := Eff) r) s
  = (s, [Sent r s],
     match b T r with Ok d => inl d | Fail e => inr e end).
Proof. cbn. destruct (b T r); reflexivity. Qed.

End ProcLaws.

(* ===================================================================== *)
(** ** Age from the date of birth                                         *)
(* ===================================================================== *)

Section Age.
Import Js JsDate CustomerForm Spec.

Lemma parse_date_only_nonempty (s : string) (ymd : Z * Z * Z) :
  parse_date_only s = Some ymd -> nonempty s = true.
Proof.
  destruct s as [|c s]; simpl; [discriminate | reflexivity].
Qed.

Lemma new_Date_local (tz : Z) (s : string) (ymd : Z * Z * Z) :
  parse_date_only s = Some ymd ->
  new_Date tz s
  = Some (mkFields (fst (fst (local_birth tz ymd)))
            (snd (fst (local_birth tz ymd)) - 1)
            (snd (local_birth tz ymd))).
Proof.
  intros Hp. unfold new_Date, local_birth. rewrite Hp.
  destruct (if tz <? 0 then prev_day ymd else ymd) as [[y m] d]. reflexivity.
Qed.

(** The body of [calculateAge] on a valid birth date, in any time zone. *)
Lemma calculateAge_local (tz : Z) (today : Fields) (dob : string)
  (ymd : Z * Z * Z) :
  parse_date_only dob = Some ymd ->
  calculateAge tz today dob =
    if 0 <=? completed_years today (local_birth tz ymd)
    then Some (completed_years today (local_birth tz ymd)) else None.
Proof.
  intros Hp. unfold calculateAge.
  rewrite (parse_date_only_nonempty _ _ Hp), (new_Date_local _ _ _ Hp).
  destruct (local_birth tz ymd) as [[y m] d].
  unfold completed_years, before_birthday. cbn.
  replace (getMonth today - (m - 1) <? 0) with (getMonth today + 1 <? m)
    by (apply Bool.eq_true_iff_eq; rewrite !Z.ltb_lt; lia).
  replace (getMonth today - (m - 1) =? 0) with (getMonth today + 1 =? m)
    by (apply Bool.eq_true_iff_eq; rewrite !Z.eqb_eq; lia).
  destruct ((getMonth today + 1 <? m)
            || (getMonth today + 1 =? m) && (getDate today <? d)); cbn.
  - replace (getFullYear today - y - 1 - 0) with (getFullYear today - y - 1)
      by lia.
    reflexivity.
  - replace (getFullYear today - y - 0) with (getFullYear today - y) by lia.
    reflexivity.
Qed.

Lemma calculateAge_fields (tz : Z) (today : Fields) (dob : string) (y m d : Z) :
  0 <= tz -> parse_date_only dob = Some (y, m, d) ->
  calculateAge tz today dob =
    if 0 <=? completed_years today (y, m, d)
    then Some (completed_years today (y, m, d)) else None.
Proof.
  intros Htz Hp. rewrite (calculateAge_local tz today dob _ Hp).
  unfold local_birth. destruct (Z.ltb_spec tz 0); [lia | reflexivity].
Qed.

(** [completed_years] is the number of anniversaries that have passed: the
    last one is not after today, the next one is. *)
Lemma completed_years_brackets (today : Fields) (y m d : Z) :
  let k := completed_years today (y, m, d) in
  date_le (anniversary (y, m, d) k) (today_ymd today)
  /\ date_lt (today_ymd today) (anniversary (y, m, d) (k + 1)).
Proof.
  unfold completed_years, before_birthday, date_lt, date_le, anniversary,
    today_ymd.
  destruct (Z.ltb_spec (getMonth today + 1) m);
    destruct (Z.eqb_spec (getMonth today + 1) m);
    destruct (Z.ltb_spec (getDate today) d); cbn; lia.
Qed.

(** The result is [null] exactly for a birth date after today. *)
Lemma completed_years_negative (today : Fields) (y m d : Z) :
  completed_years today (y, m, d) < 0 <-> date_lt (today_ymd today) (y, m, d).
Proof.
  unfold completed_years, before_birthday, date_lt, date_le, today_ymd.
  destruct (Z.ltb_spec (getMonth today + 1) m);
    destruct (Z.eqb_spec (getMonth today + 1) m);
    destruct (Z.ltb_spec (getDate today) d); cbn; lia.
Qed.

(** C1, as the claim words it, fails: a birth date after the current date
    gives [null] and two dashes on the screen, not the (negative) difference
    of the years. *)
Lemma C1_future_birth_date_counterexample :
  let today := mkFields 2024 5 15 in
  parse_date_only "2030-01-01" = Some (2030, 1, 1)
  /\ completed_years today (2030, 1, 1) = -6
  /\ calculateAge 330 today "2030-01-01" = None
  /\ calculateAge 330 today "2030-01-01"
     <> Some (completed_years today (2030, 1, 1))
  /\ render_age
       (handleInputChange 330 today "date_of_birth" "2030-01-01" initialFormData)
     = AgeDashes.
Proof.
  cbv zeta. repeat split; try reflexivity. discriminate.
Qed.

(** C1 (amended): the empty string gives [null]; for a valid date entered
    where local time is not behind UTC, the age computed and displayed is
    the difference of the calendar years, decremented by one exactly when
    the current month/day falls before the birth month/day, provided that
    number is not negative, and [null] (shown as two dashes) when it is. *)
Theorem C1_calculateAge_completed_years
  (tz : Z) (today : Fields) (dob : string) (y m d : Z) (prev : Api.Customer) :
  0 <= tz ->
  parse_date_only dob = Some (y, m, d) ->
  let years := completed_years today (y, m, d) in
  calculateAge tz today "" = None
  /\ calculateAge tz today dob = (if 0 <=? years then Some years else None)
  /\ Api.age (handleInputChange tz today "date_of_birth" dob prev)
     = calculateAge tz today dob
  /\ render_age (handleInputChange tz today "date_of_birth" dob prev)
     = (if 0 <=? years then AgeShown years else AgeDashes).
Proof.
  intros Htz Hp years.
  pose proof (calculateAge_fields tz today dob y m d Htz Hp) as Hage.
  fold years in Hage. clearbody years.
  split; [reflexivity |].
  split; [exact Hage |].
  split; [reflexivity |].
  change (handleInputChange tz today "date_of_birth" dob prev)
    with (with_dob dob (calculateAge tz today dob) prev).
  unfold render_age, with_dob.
  cbn [Api.date_of_birth Api.age].
  rewrite (parse_date_only_nonempty _ _ Hp), Hage.
  destruct (0 <=? years); reflexivity.
Qed.

Lemma C1_calculateAge_completed_years_witness :
  let today := mkFields 2024 5 15 in
  0 <= 330
  /\ parse_date_only "1990-08-20" = Some (1990, 8, 20)
  /\ calculateAge 330 today "1990-08-20" = Some 33
  /\ render_age
       (handleInputChange 330 today "date_of_birth" "1990-08-20" initialFormData)
     = AgeShown 33.
Proof.
  cbv zeta.
  pose proof (C1_calculateAge_completed_years 330 (mkFields 2024 5 15)
                "1990-08-20" 1990 8 20 initialFormData
                ltac:(lia) eq_refl) as H.
  cbv zeta in H. destruct H as (_ & H1 & _ & H2).
  split; [lia |]. split; [reflexivity |].
  split; [exact H1 | exact H2].
Defined.

(** West of Greenwich the birth date read back is the day before the one
    entered, and on the eve of a birthday the age is one year ahead. *)
Example calculateAge_west_of_Greenwich :
  let today := mkFields 2020 5 14 in
  calculateAge (-300) today "2000-06-15" = Some 20
  /\ completed_years today (2000, 6, 15) = 19.
Proof. split; reflexivity. Qed.

End Age.

(* ===================================================================== *)
(** ** Submitting the customer form                                       *)
(* ===================================================================== *)

Section Submit.
Import Js Async Api.

Lemma nonempty_true (s : string) : s <> "" -> nonempty s = true.
Proof.
  intros H. unfold nonempty.
  destruct (String.eqb_spec s ""); [contradiction | reflexivity].
Qed.

Lemma complete_of_present (formData : Customer) :
  name formData <> "" -> email formData <> "" -> phone formData <> "" ->
  date_of_birth formData <> "" -> age formData <> None ->
  CustomerForm.complete formData = true.
Proof.
  intros Hn He Hp Hd Ha. unfold CustomerForm.complete.
  rewrite !nonempty_true by assumption.
  destruct (age formData); [reflexivity | contradiction].
Qed.

(** C2: a draft whose name, email, phone, date of birth and age are present
    is sent in exactly one creation request; when the backend answers with
    the saved customer, the view becomes the needs analysis and
    [currentCustomerId] the id of the answer. *)
Theorem C2_submit_well_formed_draft
  (b : Backend Request) (formData : Customer) (s : App.State) :
  name formData <> "" -> email formData <> "" -> phone formData <> "" ->
  date_of_birth formData <> "" -> age formData <> None ->
  let r := run b (CustomerForm.handleSubmit App.handleCustomerSubmit formData) s in
  trace r = [Sent (PostCustomer formData)
               (App.setMessage None (App.setLoading true s))]
  /\ count_requests (trace r) = 1%nat
  /\ forall saved : Customer,
       b _ (PostCustomer formData) = Ok saved ->
       App.currentView (final_state r) = App.needs_analysis
       /\ App.currentCustomerId (final_state r) = id saved
       /\ App.loading (final_state r) = false.
Proof.
  intros Hn He Hp Hd Ha r. subst r.
  unfold CustomerForm.handleSubmit.
  rewrite (complete_of_present formData Hn He Hp Hd Ha).
  unfold App.handleCustomerSubmit.
  destruct (b _ (PostCustomer formData)) as [saved | e] eqn:Eb.
  - unfold final_state, trace. cbn. rewrite Eb. cbn.
    split; [reflexivity |]. split; [reflexivity |].
    intros saved' Hs. inversion Hs; subst. repeat split; reflexivity.
  - unfold final_state, trace. cbn. rewrite Eb. cbn.
    split; [reflexivity |]. split; [reflexivity |].
    intros saved' Hs. discriminate Hs.
Qed.

Lemma C2_submit_well_formed_draft_witness :
  let r := run Samples.healthy
             (CustomerForm.handleSubmit App.handleCustomerSubmit Samples.asha)
             Samples.customer_state in
  count_requests (trace r) = 1%nat
  /\ App.currentView (final_state r) = App.needs_analysis
  /\ App.currentCustomerId (final_state r) = Some 7.
Proof.
  cbv zeta.
  pose proof (C2_submit_well_formed_draft Samples.healthy Samples.asha
                Samples.customer_state
                ltac:(discriminate) ltac:(discriminate) ltac:(discriminate)
                ltac:(discriminate) ltac:(discriminate)) as H.
  cbv zeta in H. destruct H as (_ & Hone & Hok).
  destruct (Hok (Samples.saved Samples.asha 7) eq_refl) as (Hv & Hid & _).
  split; [exact Hone |]. split; [exact Hv | exact Hid].
Defined.

End Submit.

(* ===================================================================== *)
(** ** Selecting and comparing products                                   *)
(* ===================================================================== *)

Section Selection.
Import Js Async Api ProductComparison.

Lemma includes_In (x : Z) (l : list Z) : includes x l = true <-> In x l.
Proof.
  unfold includes. rewrite existsb_exists. split.
  - intros (y & Hy & E). apply Z.eqb_eq in E. subst. exact Hy.
  - intros H. exists x. split; [exact H | apply Z.eqb_refl].
Qed.

Lemma includes_false (x : Z) (l : list Z) : includes x l = false <-> ~ In x l.
Proof.
  rewrite <- includes_In. destruct (includes x l); split; intros H;
    try discriminate; try reflexivity; try (intros C; discriminate C).
  exfalso. apply H. reflexivity.
Qed.

Lemma In_remove (x y : Z) (l : list Z) :
  In y (List.filter (fun id => negb (id =? x)) l) <-> In y l /\ y <> x.
Proof.
  rewrite filter_In. rewrite Bool.negb_true_iff, Z.eqb_neq. reflexivity.
Qed.

Lemma includes_snoc (x : Z) (l : list Z) : includes x (l ++ [x]) = true.
Proof. apply includes_In, in_or_app. right. left. reflexivity. Qed.

Lemma remove_snoc_absent (x : Z) (l : list Z) :
  ~ In x l -> List.filter (fun id => negb (id =? x)) (l ++ [x]) = l.
Proof.
  intros H. rewrite filter_app. cbn. rewrite Z.eqb_refl. cbn.
  rewrite app_nil_r. induction l as [|a l IH]; [reflexivity |].
  cbn. destruct (Z.eqb_spec a x) as [E | N].
  - exfalso. apply H. left. exact E.
  - cbn. f_equal. apply IH. intros C. apply H. right. exact C.
Qed.

(** What one toggle does. *)
Lemma toggle_present (x : Z) (l : list Z) :
  In x l -> toggle x l = List.filter (fun id => negb (id =? x)) l.
Proof.
  intros H. unfold toggle. apply includes_In in H. rewrite H. reflexivity.
Qed.

Lemma toggle_absent (x : Z) (l : list Z) :
  ~ In x l -> toggle x l = l ++ [x].
Proof.
  intros H. unfold toggle. apply includes_false in H. rewrite H. reflexivity.
Qed.

Lemma toggle_membership (x y : Z) (l : list Z) :
  In y (toggle x l) <-> (y <> x /\ In y l) \/ (y = x /\ ~ In x l).
Proof.
  destruct (in_dec Z.eq_dec x l) as [Hin | Hout].
  - rewrite (toggle_present x l Hin), In_remove. tauto.
  - rewrite (toggle_absent x l Hout), in_app_iff. cbn.
    destruct (Z.eq_dec y x) as [-> | N]; [tauto |].
    split; [intros [H | [H | []]]; [tauto | congruence] | tauto].
Qed.

Lemma NoDup_remove_id (x : Z) (l : list Z) :
  NoDup l -> NoDup (List.filter (fun id => negb (id =? x)) l).
Proof. apply NoDup_filter. Qed.

Lemma NoDup_snoc (x : Z) (l : list Z) :
  NoDup l -> ~ In x l -> NoDup (l ++ [x]).
Proof.
  intros Hl Hx. apply NoDup_app; [exact Hl | repeat constructor; intros [] | ].
  intros y Hy [E | []]. subst. contradiction.
Qed.

Lemma toggle_NoDup (x : Z) (l : list Z) : NoDup l -> NoDup (toggle x l).
Proof.
  intros Hl. destruct (in_dec Z.eq_dec x l) as [Hin | Hout].
  - rewrite (toggle_present x l Hin). apply NoDup_remove_id, Hl.
  - rewrite (toggle_absent x l Hout). apply NoDup_snoc; assumption.
Qed.

(** C10, as the claim words it, fails: an id that was selected comes back at
    the end of the list, not at its old place. *)
Lemma C10_toggle_twice_counterexample :
  reachable [1; 2]
  /\ toggle 1 (toggle 1 [1; 2]) = [2; 1]
  /\ toggle 1 (toggle 1 [1; 2]) <> [1; 2].
Proof.
  split.
  - change [1; 2] with (toggle 2 (toggle 1 [])).
    do 2 apply reachable_click. apply reachable_initial.
  - split; [reflexivity | discriminate].
Qed.

(** C10 (amended): [handleProductSelection] removes the id when it is
    selected and appends it otherwise; toggling the same id twice restores
    the selection itself when the id was not selected, and otherwise moves
    the id to the end, so that the same ids are selected afterwards; every
    selection reachable from the empty one is free of duplicates. *)
Theorem C10_toggle_selection (productId : Z) (s : State) :
  let l := selectedProducts s in
  let twice :=
    selectedProducts
      (handleProductSelection productId (handleProductSelection productId s)) in
  (In productId l ->
     selectedProducts (handleProductSelection productId s)
     = List.filter (fun id => negb (id =? productId)) l
     /\ twice = List.filter (fun id => negb (id =? productId)) l ++ [productId])
  /\ (~ In productId l ->
        selectedProducts (handleProductSelection productId s) = l ++ [productId]
        /\ twice = l)
  /\ (forall y : Z, In y twice <-> In y l)
  /\ (forall l' : list Z, reachable l' -> NoDup l').
Proof.
  cbv zeta. unfold handleProductSelection. cbn.
  split; [| split; [| split]].
  - intros Hin. rewrite (toggle_present _ _ Hin).
    split; [reflexivity |].
    apply toggle_absent. rewrite In_remove. tauto.
  - intros Hout. rewrite (toggle_absent _ _ Hout).
    split; [reflexivity |].
    rewrite (toggle_present productId (selectedProducts s ++ [productId])).
    + apply remove_snoc_absent, Hout.
    + apply in_or_app. right. left. reflexivity.
  - intros y. rewrite !toggle_membership.
    destruct (Z.eq_dec y productId) as [-> | N];
      destruct (in_dec Z.eq_dec productId (selectedProducts s)); tauto.
  - intros l' Hr. induction Hr as [| x l Hr IH].
    + constructor.
    + apply toggle_NoDup, IH.
Qed.

Lemma C10_toggle_selection_witness :
  selectedProducts
    (handleProductSelection 3
       (handleProductSelection 3 (Samples.comparison_state [1; 2])))
  = [1; 2]
  /\ selectedProducts
       (handleProductSelection 1
          (handleProductSelection 1 (Samples.comparison_state [1; 2])))
     = [2; 1]
  /\ NoDup (toggle 2 (toggle 1 [])).
Proof.
  pose proof (C10_toggle_selection 3 (Samples.comparison_state [1; 2])) as H3.
  pose proof (C10_toggle_selection 1 (Samples.comparison_state [1; 2])) as H1.
  cbv zeta in H3, H1.
  destruct H3 as (_ & Habsent & _ & Hnodup).
  destruct H1 as (Hpresent & _).
  split.
  - apply Habsent. cbn. intros [E | [E | []]]; discriminate E.
  - split.
    + apply Hpresent. cbn. left. reflexivity.
    + apply Hnodup. do 2 apply reachable_click. apply reachable_initial.
Defined.

End Selection.

Section Compare.
Import Js Async Api ProductComparison.

Lemma handleCompare_few (b : Backend Request) (s : State) :
  (List.length (selectedProducts s) < 2)%nat ->
  run b (handleCompare s) s
  = (setError (Some "Please select at least 2 products to compare") s,
     [], inl tt).
Proof.
  intros H. unfold handleCompare.
  destruct (Z.ltb_spec (Z.of_nat (List.length (selectedProducts s))) 2);
    [reflexivity | lia].
Qed.

Lemma handleCompare_enough (b : Backend Request) (s : State) :
  (2 <= List.length (selectedProducts s))%nat ->
  trace (run b (handleCompare s) s)
  = [Sent (PostCompare (compare_body s)) (setError None (setLoading true s))].
Proof.
  intros H. unfold handleCompare.
  destruct (Z.ltb_spec (Z.of_nat (List.length (selectedProducts s))) 2);
    [lia |].
  unfold trace. backend_answers; reflexivity.
Qed.

(** C3: with fewer than two products selected the compare button is
    disabled, and [handleCompare] itself sets the error message and returns
    without a request, the comparison result being left as it was; with two
    or more selected it issues the comparison request. *)
Theorem C3_compare_needs_two_products (b : Backend Request) (s : State) :
  ((List.length (selectedProducts s) < 2)%nat ->
     compare_disabled s = true
     /\ trace (run b (click_compare s) s) = []
     /\ trace (run b (handleCompare s) s) = []
     /\ error (final_state (run b (handleCompare s) s))
        = Some "Please select at least 2 products to compare"
     /\ comparisonResult (final_state (run b (handleCompare s) s))
        = comparisonResult s)
  /\ ((2 <= List.length (selectedProducts s))%nat ->
        trace (run b (handleCompare s) s)
        = [Sent (PostCompare (compare_body s))
             (setError None (setLoading true s))]
        /\ count_requests (trace (run b (handleCompare s) s)) = 1%nat).
Proof.
  split.
  - intros H.
    assert (Hd : compare_disabled s = true).
    { unfold compare_disabled.
      destruct (Z.ltb_spec (Z.of_nat (List.length (selectedProducts s))) 2);
        [apply Bool.orb_true_r | lia]. }
    split; [exact Hd |].
    split; [unfold click_compare; rewrite Hd; reflexivity |].
    rewrite (handleCompare_few b s H). repeat split.
  - intros H. rewrite (handleCompare_enough b s H).
    split; reflexivity.
Qed.

Lemma C3_compare_needs_two_products_witness :
  compare_disabled (Samples.comparison_state [4]) = true
  /\ trace (run Samples.healthy (handleCompare (Samples.comparison_state [4]))
              (Samples.comparison_state [4])) = []
  /\ count_requests
       (trace (run Samples.healthy
                 (handleCompare (Samples.comparison_state [4; 9]))
                 (Samples.comparison_state [4; 9]))) = 1%nat.
Proof.
  pose proof (C3_compare_needs_two_products Samples.healthy
                (Samples.comparison_state [4])) as [Hfew _].
  pose proof (C3_compare_needs_two_products Samples.healthy
                (Samples.comparison_state [4; 9])) as [_ Henough].
  destruct (Hfew ltac:(cbn; lia)) as (Hd & _ & Hnone & _).
  destruct (Henough ltac:(cbn; lia)) as (_ & Hone).
  split; [exact Hd |]. split; [exact Hnone | exact Hone].
Defined.

End Compare.

(* ===================================================================== *)
(** ** PDF reports                                                        *)
(* ===================================================================== *)

Section WhiteSpaceRuns.
Import Js Spec.

Lemma runs_nil (s : jsstr) : runs s = [] -> s = [].
Proof.
  destruct s as [|c rest]; [reflexivity |].
  cbn. destruct (runs rest) as [|[w r] more]; [discriminate |].
  destruct (Bool.eqb w (is_space c)); discriminate.
Qed.

(** The runs are a partition of the string ... *)
Lemma runs_concat (s : jsstr) : List.concat (List.map snd (runs s)) = s.
Proof.
  induction s as [|c rest IH]; [reflexivity |].
  cbn. destruct (runs rest) as [|[w r] more] eqn:E.
  - apply runs_nil in E. subst. reflexivity.
  - destruct (Bool.eqb w (is_space c)); cbn in *; rewrite IH; reflexivity.
Qed.

(** ... each of one kind and not empty ... *)
Lemma runs_uniform (s : jsstr) :
  Forall (fun r => snd r <> [] /\ Forall (fun c => is_space c = fst r) (snd r))
         (runs s).
Proof.
  induction s as [|c rest IH]; [constructor |].
  cbn. destruct (runs rest) as [|[w r] more].
  - repeat constructor. discriminate.
  - inversion IH as [|? ? [Hne Hr] Hmore]; subst. cbn in *.
    destruct (Bool.eqb w (is_space c)) eqn:E.
    + apply Bool.eqb_prop in E. constructor; [| exact Hmore].
      cbn. split; [discriminate |]. constructor; [symmetry; exact E | exact Hr].
    + constructor; [cbn; split; [discriminate | repeat constructor] |].
      constructor; [split; assumption | exact Hmore].
Qed.

(** ... and maximal: neighbouring runs are of different kinds. *)
Lemma runs_alternating (s : jsstr) : alternating (runs s).
Proof.
  induction s as [|c rest IH]; [exact I |].
  cbn. destruct (runs rest) as [|[w r] more]; [exact I |].
  destruct (Bool.eqb w (is_space c)) eqn:E.
  - destruct more; [exact I | exact IH].
  - split; [| exact IH]. cbn. intros C. subst.
    rewrite Bool.eqb_reflx in E. discriminate.
Qed.

Lemma replace_spaces_from_runs (s : jsstr) :
  replace_spaces_from false s = underscore_runs s
  /\ replace_spaces_from true s
     = match runs s with
       | (true, _) :: more => List.concat (List.map squash_run more)
       | _ => underscore_runs s
       end.
Proof.
  unfold underscore_runs.
  induction s as [|c rest [IHf IHt]]; [split; reflexivity |].
  cbn [replace_spaces_from runs].
  destruct (runs rest) as [|[w r] more] eqn:E.
  - apply runs_nil in E. subst. cbn.
    destruct (is_space c); split; reflexivity.
  - destruct w, (is_space c) eqn:Ec; cbn in *;
      rewrite ?IHf, ?IHt; split; reflexivity.
Qed.

(** The regular-expression replacement squashes every maximal run of white
    space into one underscore. *)
Lemma replace_spaces_underscore_runs (s : jsstr) :
  replace_spaces s = underscore_runs s.
Proof. apply replace_spaces_from_runs. Qed.

End WhiteSpaceRuns.

Section Timestamp.
Import Js JsDate Spec.

Lemma before_first_app (sep : N) (a b : jsstr) :
  Forall (fun c => c <> sep) a ->
  before_first sep (a ++ b) = a ++ before_first sep b.
Proof.
  induction 1 as [|c a Hc Ha IH]; [reflexivity |].
  cbn. destruct (N.eqb_spec c sep); [contradiction |]. rewrite IH. reflexivity.
Qed.

Lemma pad_digits (w : nat) (n : Z) :
  Forall (fun c => c <> N_of_ascii "T") (pad w n).
Proof.
  revert n. induction w as [|w IH]; intros n; [constructor |].
  cbn [pad]. apply Forall_app. split; [apply IH |].
  constructor; [| constructor].
  unfold digit_unit. change (N_of_ascii "T") with 84%N.
  pose proof (Z.mod_pos_bound n 10 ltac:(lia)). lia.
Qed.

Lemma timestamp_iso_date (now : UTC) :
  0 <= utcYear now <= 9999 ->
  PDFReports.timestamp now = iso_date now.
Proof.
  intros [H0 H9]. unfold PDFReports.timestamp, toISOString, iso_date.
  destruct (Z.leb_spec 0 (utcYear now)); [| lia].
  destruct (Z.leb_spec (utcYear now) 9999); [| lia].
  cbn [andb].
  rewrite (before_first_app _ _ _ (pad_digits 4 _)). f_equal.
  rewrite before_first_app by (repeat constructor; discriminate). f_equal.
  rewrite (before_first_app _ _ _ (pad_digits 2 _)). f_equal.
  rewrite before_first_app by (repeat constructor; discriminate). f_equal.
  rewrite (before_first_app _ _ _ (pad_digits 2 _)).
  transitivity (pad 2 (utcDay now) ++ []);
    [f_equal; reflexivity | apply app_nil_r].
Qed.

End Timestamp.

Section Reports.
Import Js JsDate Async Api PDFReports Spec.

Lemma find_selected (cs : list ReportCustomer) (selected : Z) (c : ReportCustomer) :
  selected_customer cs selected c ->
  List.find (fun x => rc_id x =? selected) cs = Some c.
Proof.
  intros (before & after & -> & Hid & Hbefore).
  induction before as [|x before IH]; cbn.
  - rewrite Hid, Z.eqb_refl. reflexivity.
  - destruct (Z.eqb_spec (rc_id x) selected) as [E | _].
    + exfalso. apply (Hbefore x); [left; reflexivity | exact E].
    + apply IH. intros y Hy. apply Hbefore. right. exact Hy.
Qed.

Lemma find_not_loaded (cs : list ReportCustomer) (selected : Z) :
  not_loaded cs selected ->
  List.find (fun x => rc_id x =? selected) cs = None.
Proof.
  intros H. induction cs as [|x cs IH]; [reflexivity |]. cbn.
  destruct (Z.eqb_spec (rc_id x) selected) as [E | _].
  - exfalso. apply (H x); [left; reflexivity | exact E].
  - apply IH. intros y Hy. apply H. right. exact Hy.
Qed.

Lemma download_name_button (k : ReportKind) (cs : list ReportCustomer)
  (selected : Z) (now : UTC) :
  download_name (button_report_type k) cs selected now
  = report_prefix k ++ customerName cs selected ++ lit "_" ++ timestamp now
    ++ lit ".pdf".
Proof. destruct k; reflexivity. Qed.

(** A run of [generatePDF] that gets its document. *)
Lemma generatePDF_success (b : Backend Request) (apiBaseUrl : string)
  (now : UTC) (st s : State) (k : ReportKind) (selected : Z) (data : JsVal) :
  selectedCustomer st = Some selected -> selected <> 0 ->
  b _ (GetPdf apiBaseUrl k selected) = Ok data ->
  run b (generatePDF apiBaseUrl now st (button_report_type k)) s
  = (setLoading false
       (setSuccess
          (Some (replace_first_hyphen (button_report_type k)
                 ++ " PDF generated successfully!")%string)
          (setSuccess None (setError None (setLoading true s)))),
     [Sent (GetPdf apiBaseUrl k selected)
        (setSuccess None (setError None (setLoading true s)));
      Did (Download
             (download_name (button_report_type k) (customers st) selected now)
             data)],
     inl tt).
Proof.
  intros Hsel Hnz Hb. unfold generatePDF. rewrite Hsel.
  destruct (Z.eqb_spec selected 0) as [E | _]; [contradiction |].
  destruct k; cbn; rewrite Hb; reflexivity.
Qed.

(** No run of [generatePDF] touches the customer list or the selection. *)
Lemma generatePDF_frame (b : Backend Request) (apiBaseUrl : string)
  (now : UTC) (st s : State) (reportType : string) :
  let r := run b (generatePDF apiBaseUrl now st reportType) s in
  customers (final_state r) = customers s
  /\ selectedCustomer (final_state r) = selectedCustomer s.
Proof.
  cbv zeta. unfold generatePDF.
  destruct (selectedCustomer st) as [selected |]; [| split; reflexivity].
  destruct (selected =? 0); [split; reflexivity |].
  destruct (String.eqb reportType "needs-analysis");
    [| destruct (String.eqb reportType "comprehensive")];
    run_handler; split; reflexivity.
Qed.

(** C5: whatever the report type, the selection and the backend's answer,
    [generatePDF] leaves the customer list and the selected customer as they
    were (the remaining fields of the state are the loading, error and
    success indicators); when the document arrives, exactly one file save
    is initiated. *)
Theorem C5_generatePDF_keeps_data_state
  (b : Backend Request) (apiBaseUrl : string) (now : UTC) (st s : State)
  (reportType : string) :
  let r := run b (generatePDF apiBaseUrl now st reportType) s in
  customers (final_state r) = customers s
  /\ selectedCustomer (final_state r) = selectedCustomer s
  /\ forall (k : ReportKind) (selected : Z) (data : JsVal),
       reportType = button_report_type k ->
       selectedCustomer st = Some selected -> selected <> 0 ->
       b _ (GetPdf apiBaseUrl k selected) = Ok data ->
       effects_of (trace r)
       = [Download (download_name reportType (customers st) selected now) data]
       /\ loading (final_state r) = false
       /\ error (final_state r) = None.
Proof.
  cbv zeta.
  destruct (generatePDF_frame b apiBaseUrl now st s reportType) as [Hc Hs].
  split; [exact Hc |]. split; [exact Hs |].
  intros k selected data -> Hsel Hnz Hb.
  rewrite (generatePDF_success b apiBaseUrl now st s k selected data Hsel Hnz Hb).
  repeat split.
Qed.

Lemma C5_generatePDF_keeps_data_state_witness :
  let s := Samples.reports_state (Some 7) in
  let r := run Samples.healthy
             (generatePDF "http://localhost:8000" Samples.noon s "comprehensive")
             s in
  customers (final_state r) = Samples.report_customers
  /\ selectedCustomer (final_state r) = Some 7
  /\ effects_of (trace r)
     = [Download (lit "comprehensive_report_Asha_Rao_2024-06-15.pdf")
          Samples.pdf_bytes].
Proof.
  cbv zeta.
  pose proof (C5_generatePDF_keeps_data_state Samples.healthy
                "http://localhost:8000" Samples.noon
                (Samples.reports_state (Some 7))
                (Samples.reports_state (Some 7)) "comprehensive") as H.
  cbv zeta in H. destruct H as (Hc & Hs & Hok).
  destruct (Hok ComprehensiveReport 7 Samples.pdf_bytes eq_refl eq_refl
              ltac:(lia) eq_refl) as (Hd & _).
  split; [exact Hc |]. split; [exact Hs | exact Hd].
Defined.

(** C6: the file saved by a successful generation is named
    [needs_analysis_<name>_<date>.pdf] or
    [comprehensive_report_<name>_<date>.pdf] according to the report kind;
    [<name>] is the name of the selected customer with every run of white
    space replaced by one underscore, or [customer] when no loaded customer
    has the selected id; [<date>] is the current (UTC) date as
    [YYYY-MM-DD]. *)
Theorem C6_download_file_name
  (b : Backend Request) (apiBaseUrl : string) (now : UTC) (st s : State)
  (k : ReportKind) (selected : Z) (data : JsVal) :
  selectedCustomer st = Some selected -> selected <> 0 ->
  b _ (GetPdf apiBaseUrl k selected) = Ok data ->
  0 <= utcYear now <= 9999 ->
  exists filename : jsstr,
    effects_of
      (trace (run b (generatePDF apiBaseUrl now st (button_report_type k)) s))
    = [Download filename data]
    /\ (forall c : ReportCustomer,
          selected_customer (customers st) selected c ->
          filename = report_prefix k ++ underscore_runs (rc_name c) ++ lit "_"
                     ++ iso_date now ++ lit ".pdf")
    /\ (not_loaded (customers st) selected ->
        filename = report_prefix k ++ lit "customer" ++ lit "_"
                   ++ iso_date now ++ lit ".pdf").
Proof.
  intros Hsel Hnz Hb Hyear.
  exists (download_name (button_report_type k) (customers st) selected now).
  rewrite (generatePDF_success b apiBaseUrl now st s k selected data Hsel Hnz Hb).
  split; [reflexivity |].
  rewrite download_name_button, (timestamp_iso_date now Hyear).
  unfold customerName. split.
  - intros c Hc. rewrite (find_selected _ _ _ Hc).
    rewrite replace_spaces_underscore_runs. reflexivity.
  - intros Hnone. rewrite (find_not_loaded _ _ Hnone). reflexivity.
Qed.

Lemma C6_download_file_name_witness :
  effects_of
    (trace (run Samples.healthy
              (generatePDF "http://localhost:8000" Samples.noon
                 (Samples.reports_state (Some 7))
                 (button_report_type NeedsAnalysisReport))
              (Samples.reports_state (Some 7))))
  = [Download (lit "needs_analysis_Asha_Rao_2024-06-15.pdf") Samples.pdf_bytes].
Proof.
  destruct (C6_download_file_name Samples.healthy "http://localhost:8000"
              Samples.noon (Samples.reports_state (Some 7))
              (Samples.reports_state (Some 7)) NeedsAnalysisReport 7
              Samples.pdf_bytes eq_refl ltac:(lia) eq_refl ltac:(cbn; lia))
    as (filename & Heff & Hfound & _).
  rewrite Heff. f_equal. f_equal.
  apply (Hfound (mkReportCustomer 7 (lit "Asha  Rao") "asha@example.org"
                   33 1200000 3)).
  exists [], [mkReportCustomer 8 (lit "Vikram Seth") "vikram@example.org"
                41 900000 4].
  split; [reflexivity |]. split; [reflexivity |]. intros x [].
Defined.

End Reports.

(* ===================================================================== *)
(** ** Creating a needs analysis                                          *)
(* ===================================================================== *)

Section NeedsAnalysisInput.
Import Js Async Api.

Variable S : Type.

(** C9, as the claim words it, fails: a [total] that is present but falsy
    (here the empty string) is replaced by 0. *)
Lemma C9_blank_total_counterexample :
  let total := opt_chain (existing_insurance Samples.blank_total) "total" in
  total = JsString ""
  /\ total <> JsUndefined
  /\ List.map existing_coverage
       (posted_inputs
          (trace (run Samples.serves_blank_total
                    (createNeedsAnalysis 12) tt)))
     = [JsNumber 0]
  /\ JsNumber 0 <> total.
Proof.
  cbv zeta. repeat split; try reflexivity; discriminate.
Qed.

(** C9 (amended): [createNeedsAnalysis] first fetches the customer and,
    when that succeeds, posts one calculator input: [customer_id], age,
    gender, annual income, family size and dependents are the fetched
    customer's; [existing_coverage] is [existing_insurance.total] when that
    value is truthy and 0 otherwise (so a numeric total is always passed on,
    and an absent one gives 0); the other fields are the constants
    'comprehensive', 0, 0, 0, 6 and 8. *)
Theorem C9_createNeedsAnalysis_input
  (b : Backend Request) (s : S) (customerId : Z) (c : Customer) :
  b _ (GetCustomer customerId) = Ok c ->
  let total := opt_chain (existing_insurance c) "total" in
  let input :=
    {| customer_id := id c;
       calculation_type := "comprehensive";
       ci_age := age c;
       ci_gender := gender c;
       ci_annual_income := annual_income c;
       ci_family_size := family_size c;
       ci_dependents := dependents c;
       existing_coverage := if truthy total then total else JsNumber 0;
       debt_obligations := 0;
       children_education_needs := 0;
       retirement_needs := 0;
       inflation_rate := 6;
       return_rate := 8 |} in
  trace (run b (createNeedsAnalysis customerId) s)
  = [Sent (GetCustomer customerId) s; Sent (PostNeedsAnalysis input) s]
  /\ (forall n : Z, total = JsNumber n -> existing_coverage input = JsNumber n)
  /\ (total = JsUndefined -> existing_coverage input = JsNumber 0).
Proof.
  intros Hb total input. split.
  - unfold trace, createNeedsAnalysis. cbn. rewrite Hb. cbn.
    destruct (b _ (PostNeedsAnalysis _)); reflexivity.
  - subst input. cbn. split.
    + intros n Hn. rewrite Hn. cbn.
      destruct (Z.eqb_spec n 0) as [-> | _]; reflexivity.
    + intros Hu. rewrite Hu. reflexivity.
Qed.

End NeedsAnalysisInput.

Lemma C9_createNeedsAnalysis_input_witness :
  List.map Api.existing_coverage
    (Api.posted_inputs
       (Async.trace (Async.run Samples.healthy (Api.createNeedsAnalysis 7) tt)))
  = [Js.JsNumber 500000].
Proof.
  pose proof (C9_createNeedsAnalysis_input unit Samples.healthy tt 7
                (Samples.saved Samples.asha 7) eq_refl) as H.
  cbv zeta in H. destruct H as (Htrace & _).
  rewrite Htrace. reflexivity.
Defined.

(* ===================================================================== *)
(** ** Failed requests                                                    *)
(* ===================================================================== *)

Section Failures.
Import Js Async Api Spec.

Variable b : Backend Request.

Lemma ProductsList_failure (s : ProductsList.State) (e : Exn) :
  b _ GetProducts = Fail e ->
  final_state (run b ProductsList.fetchProducts s)
  = ProductsList.mkState (ProductsList.products s) false
      (Some "Failed to fetch products").
Proof. intros H. unfold ProductsList.fetchProducts. run_given. reflexivity. Qed.

Lemma Recommendations_failure (s : Recommendations.State) (cid : Z) (e : Exn) :
  b _ (GenerateRecommendations cid) = Fail e ->
  final_state (run b (Recommendations.fetchRecommendations cid) s)
  = Recommendations.mkState (Recommendations.recommendations s) false
      (Some "Failed to fetch recommendations").
Proof.
  intros H. unfold Recommendations.fetchRecommendations. run_given.
  reflexivity.
Qed.

(** The answer to the preliminary creation does not matter. *)
Lemma NeedsAnalysis_failure (s : NeedsAnalysis.State) (cid : Z) (e : Exn) :
  b _ (GetEnhancedNeedsAnalysis cid) = Fail e ->
  final_state (run b (NeedsAnalysis.createAndFetchNeedsAnalysis cid) s)
  = NeedsAnalysis.mkState (NeedsAnalysis.data s) false
      (Some "Failed to fetch needs analysis").
Proof.
  intros H.
  unfold NeedsAnalysis.createAndFetchNeedsAnalysis, createNeedsAnalysis.
  unfold final_state. cbn.
  destruct (b _ (GetCustomer cid)) as [c | e1]; cbn.
  - match goal with
    | |- context [b _ (PostNeedsAnalysis ?i)] =>
        destruct (b _ (PostNeedsAnalysis i)); cbn
    end; rewrite H; reflexivity.
  - rewrite H. reflexivity.
Qed.

Lemma AnalyticsDashboard_failure (s st : AnalyticsDashboard.State)
  (base : string) (e : Exn) :
  b _ (GetDashboard base (AnalyticsDashboard.selectedPeriod st)) = Fail e ->
  final_state (run b (AnalyticsDashboard.fetchDashboardData base st) s)
  = AnalyticsDashboard.mkState (AnalyticsDashboard.metrics s) false
      (Some "Failed to fetch dashboard data. Please try again.")
      (AnalyticsDashboard.selectedPeriod s).
Proof.
  intros H. unfold AnalyticsDashboard.fetchDashboardData. run_given.
  reflexivity.
Qed.

Lemma InflationCalculator_failure (s st : InflationCalculator.State)
  (base : string) (e : Exn) :
  b _ (PostInflation base (InflationCalculator.formData st)) = Fail e ->
  final_state (run b (InflationCalculator.handleSubmit base st) s)
  = InflationCalculator.mkState (InflationCalculator.formData s)
      (InflationCalculator.result s) false
      (Some "Failed to calculate inflation-adjusted returns. Please try again.").
Proof.
  intros H. unfold InflationCalculator.handleSubmit. run_given. reflexivity.
Qed.

Lemma ProductComparison_fetch_failure (s : ProductComparison.State) (e : Exn) :
  b _ GetProducts = Fail e ->
  final_state (run b ProductComparison.fetchProducts s)
  = ProductComparison.setError (Some "Failed to fetch products") s.
Proof.
  intros H. unfold ProductComparison.fetchProducts. run_given. reflexivity.
Qed.

Lemma ProductComparison_compare_failure (s st : ProductComparison.State)
  (e : Exn) :
  (2 <= List.length (ProductComparison.selectedProducts st))%nat ->
  b _ (PostCompare (ProductComparison.compare_body st)) = Fail e ->
  final_state (run b (ProductComparison.handleCompare st) s)
  = ProductComparison.setLoading false
      (ProductComparison.setError (Some "Failed to compare products") s).
Proof.
  intros Hlen H. unfold ProductComparison.handleCompare.
  destruct (Z.ltb_spec
              (Z.of_nat (List.length (ProductComparison.selectedProducts st))) 2);
    [lia |].
  run_given. reflexivity.
Qed.

Lemma PDFReports_fetch_failure (s : PDFReports.State) (base : string) (e : Exn) :
  b _ (GetCustomers base) = Fail e ->
  final_state (run b (PDFReports.fetchCustomers base) s)
  = PDFReports.setLoading false
      (PDFReports.setError (Some "Failed to fetch customers") s).
Proof. intros H. unfold PDFReports.fetchCustomers. run_given. reflexivity. Qed.

Lemma blob_rejection_no_detail (e : Exn) :
  response_detail (as_blob_rejection e) = None.
Proof. destruct e as [code [r |] | m]; reflexivity. Qed.

Lemma PDFReports_generate_failure (s st : PDFReports.State) (base : string)
  (now : JsDate.UTC) (k : ReportKind) (selected : Z) (e : Exn) :
  PDFReports.selectedCustomer st = Some selected -> selected <> 0 ->
  b _ (GetPdf base k selected) = Fail e ->
  run b (PDFReports.generatePDF base now st (PDFReports.button_report_type k)) s
  = (PDFReports.mkState (PDFReports.customers s)
       (PDFReports.selectedCustomer s) false
       (Some "Failed to generate PDF") None,
     [Sent (GetPdf base k selected)
        (PDFReports.setSuccess None
           (PDFReports.setError None (PDFReports.setLoading true s)))],
     inl tt).
Proof.
  intros Hsel Hnz H. unfold PDFReports.generatePDF. rewrite Hsel.
  destruct (Z.eqb_spec selected 0); [contradiction |].
  destruct k; cbn; rewrite H; cbn; rewrite blob_rejection_no_detail;
    reflexivity.
Qed.

(** In the needs analysis view the outcome of the creation requests makes
    no difference once the analysis for display arrives. *)
Lemma NeedsAnalysis_display_arrives (s : NeedsAnalysis.State) (cid : Z)
  (d : JsVal) :
  b _ (GetEnhancedNeedsAnalysis cid) = Ok d ->
  final_state (run b (NeedsAnalysis.createAndFetchNeedsAnalysis cid) s)
  = NeedsAnalysis.mkState (Some d) false (NeedsAnalysis.error s).
Proof.
  intros H.
  unfold NeedsAnalysis.createAndFetchNeedsAnalysis, createNeedsAnalysis.
  unfold final_state. cbn.
  destruct (b _ (GetCustomer cid)) as [c | e1]; cbn.
  - match goal with
    | |- context [b _ (PostNeedsAnalysis ?i)] =>
        destruct (b _ (PostNeedsAnalysis i)); cbn
    end; rewrite H; reflexivity.
  - rewrite H. reflexivity.
Qed.

Lemma App_submit_failure (s : App.State) (c : Customer) (e : Exn) :
  b _ (PostCustomer c) = Fail e ->
  final_state (run b (App.handleCustomerSubmit c) s)
  = App.mkState (App.currentView s) false
      (Some (App.error, "Failed to save customer. Please try again."))
      (App.currentCustomerId s).
Proof. intros H. unfold App.handleCustomerSubmit. run_given. reflexivity. Qed.

(** The three places at which the market data fetch can fail. *)
Lemma MarketData_latest_failure (s : MarketData.State) (base : string) (e : Exn) :
  b _ (GetMarketLatest base) = Fail e ->
  final_state (run b (MarketData.fetchMarketData base) s)
  = MarketData.mkState (MarketData.marketData s) (MarketData.trends s)
      (MarketData.insights s) false
      (Some "Failed to fetch market data. Please try again later.").
Proof. intros H. unfold MarketData.fetchMarketData. run_given. reflexivity. Qed.

Lemma MarketData_trends_failure (s : MarketData.State) (base : string)
  (latest : list JsVal) (e : Exn) :
  b _ (GetMarketLatest base) = Ok latest ->
  b _ (GetMarketTrends base) = Fail e ->
  final_state (run b (MarketData.fetchMarketData base) s)
  = MarketData.mkState latest (MarketData.trends s) (MarketData.insights s)
      false (Some "Failed to fetch market data. Please try again later.").
Proof.
  intros H1 H2. unfold MarketData.fetchMarketData. run_given. reflexivity.
Qed.

Lemma MarketData_insights_failure (s : MarketData.State) (base : string)
  (latest : list JsVal) (trendsData : JsVal) (e : Exn) :
  b _ (GetMarketLatest base) = Ok latest ->
  b _ (GetMarketTrends base) = Ok trendsData ->
  b _ (GetMarketInsights base) = Fail e ->
  final_state (run b (MarketData.fetchMarketData base) s)
  = MarketData.mkState latest (Some trendsData) (MarketData.insights s)
      false (Some "Failed to fetch market data. Please try again later.").
Proof.
  intros H1 H2 H3. unfold MarketData.fetchMarketData. run_given. reflexivity.
Qed.

End Failures.

Section FailedFetch.
Import Js Async Api Spec.

(** C4, as the claim words it, fails for the market data view: when the
    trends request fails, the latest data fetched just before is already in
    the state. *)
Lemma C4_market_data_counterexample :
  let s := Samples.market_state in
  let r := run Samples.trends_down
             (MarketData.fetchMarketData "http://localhost:8000") s in
  @Samples.trends_down _ (GetMarketTrends "http://localhost:8000")
  = Fail Samples.timed_out
  /\ MarketData.render (final_state r)
     = ErrorPanel "Failed to fetch market data. Please try again later."
  /\ MarketData.marketData s = [JsNumber 0]
  /\ MarketData.marketData (final_state r) = [JsNumber 1]
  /\ MarketData.marketData (final_state r) <> MarketData.marketData s.
Proof.
  cbv zeta. repeat split; try reflexivity. discriminate.
Qed.

(** C4 (amended): when the fetch of a view fails, the view sets its error
    state (the root component its error message) and, once loading is over,
    shows the error panel.  Where the operation is a single request the data
    the view held is unchanged.  The market data fetch stores every answer
    as it arrives: the data of the requests that succeeded before the
    failing one is replaced, the rest is unchanged.  The needs analysis
    view is the exception to the first sentence: the requests that create
    the analysis come before its fetch for display, and their failure is
    ignored, so that no error is set and the analysis that arrives for
    display is stored whatever they answered. *)
Theorem C4_failed_fetch_error_and_data (b : Backend Request) :
  (forall s e, b _ GetProducts = Fail e ->
     let f := final_state (run b ProductsList.fetchProducts s) in
     error_text (ProductsList.render f) = Some "Failed to fetch products"
     /\ ProductsList.products f = ProductsList.products s)
  /\ (forall s cid e, b _ (GenerateRecommendations cid) = Fail e ->
        let f := final_state (run b (Recommendations.fetchRecommendations cid) s) in
        error_text (Recommendations.render f)
        = Some "Failed to fetch recommendations"
        /\ Recommendations.recommendations f = Recommendations.recommendations s)
  /\ (forall s cid e, b _ (GetEnhancedNeedsAnalysis cid) = Fail e ->
        let f := final_state
                   (run b (NeedsAnalysis.createAndFetchNeedsAnalysis cid) s) in
        error_text (NeedsAnalysis.render f) = Some "Failed to fetch needs analysis"
        /\ NeedsAnalysis.data f = NeedsAnalysis.data s)
  /\ (forall s st base e,
        b _ (GetDashboard base (AnalyticsDashboard.selectedPeriod st)) = Fail e ->
        let f := final_state
                   (run b (AnalyticsDashboard.fetchDashboardData base st) s) in
        error_text (AnalyticsDashboard.render f)
        = Some "Failed to fetch dashboard data. Please try again."
        /\ AnalyticsDashboard.metrics f = AnalyticsDashboard.metrics s
        /\ AnalyticsDashboard.selectedPeriod f = AnalyticsDashboard.selectedPeriod s)
  /\ (forall s st base e,
        b _ (PostInflation base (InflationCalculator.formData st)) = Fail e ->
        let f := final_state (run b (InflationCalculator.handleSubmit base st) s) in
        InflationCalculator.error_panel f
        = Some "Failed to calculate inflation-adjusted returns. Please try again."
        /\ InflationCalculator.result f = InflationCalculator.result s
        /\ InflationCalculator.formData f = InflationCalculator.formData s)
  /\ (forall s e, b _ GetProducts = Fail e ->
        let f := final_state (run b ProductComparison.fetchProducts s) in
        ProductComparison.error_panel f = Some "Failed to fetch products"
        /\ ProductComparison.setError (ProductComparison.error s) f = s)
  /\ (forall s st e,
        (2 <= List.length (ProductComparison.selectedProducts st))%nat ->
        b _ (PostCompare (ProductComparison.compare_body st)) = Fail e ->
        let f := final_state (run b (ProductComparison.handleCompare st) s) in
        ProductComparison.error_panel f = Some "Failed to compare products"
        /\ ProductComparison.setLoading (ProductComparison.loading s)
             (ProductComparison.setError (ProductComparison.error s) f) = s)
  /\ (forall s base e, b _ (GetCustomers base) = Fail e ->
        let f := final_state (run b (PDFReports.fetchCustomers base) s) in
        PDFReports.error_panel f = Some "Failed to fetch customers"
        /\ PDFReports.customers f = PDFReports.customers s
        /\ PDFReports.selectedCustomer f = PDFReports.selectedCustomer s)
  /\ (forall s st base now k selected e,
        PDFReports.selectedCustomer st = Some selected -> selected <> 0 ->
        b _ (GetPdf base k selected) = Fail e ->
        let f := final_state
                   (run b (PDFReports.generatePDF base now st
                             (PDFReports.button_report_type k)) s) in
        (exists text, PDFReports.error_panel f = Some text)
        /\ PDFReports.customers f = PDFReports.customers s
        /\ PDFReports.selectedCustomer f = PDFReports.selectedCustomer s)
  /\ (forall s c e, b _ (PostCustomer c) = Fail e ->
        let f := final_state (run b (App.handleCustomerSubmit c) s) in
        App.message f
        = Some (App.error, "Failed to save customer. Please try again.")
        /\ App.currentView f = App.currentView s
        /\ App.currentCustomerId f = App.currentCustomerId s)
  /\ (forall s base e, b _ (GetMarketLatest base) = Fail e ->
        let f := final_state (run b (MarketData.fetchMarketData base) s) in
        error_text (MarketData.render f)
        = Some "Failed to fetch market data. Please try again later."
        /\ MarketData.marketData f = MarketData.marketData s
        /\ MarketData.trends f = MarketData.trends s
        /\ MarketData.insights f = MarketData.insights s)
  /\ (forall s base latest e,
        b _ (GetMarketLatest base) = Ok latest ->
        b _ (GetMarketTrends base) = Fail e ->
        let f := final_state (run b (MarketData.fetchMarketData base) s) in
        error_text (MarketData.render f)
        = Some "Failed to fetch market data. Please try again later."
        /\ MarketData.marketData f = latest
        /\ MarketData.trends f = MarketData.trends s
        /\ MarketData.insights f = MarketData.insights s)
  /\ (forall s base latest trendsData e,
        b _ (GetMarketLatest base) = Ok latest ->
        b _ (GetMarketTrends base) = Ok trendsData ->
        b _ (GetMarketInsights base) = Fail e ->
        let f := final_state (run b (MarketData.fetchMarketData base) s) in
        error_text (MarketData.render f)
        = Some "Failed to fetch market data. Please try again later."
        /\ MarketData.marketData f = latest
        /\ MarketData.trends f = Some trendsData
        /\ MarketData.insights f = MarketData.insights s)
  /\ (forall s cid d, b _ (GetEnhancedNeedsAnalysis cid) = Ok d ->
        let f := final_state
                   (run b (NeedsAnalysis.createAndFetchNeedsAnalysis cid) s) in
        NeedsAnalysis.error f = NeedsAnalysis.error s
        /\ NeedsAnalysis.data f = Some d
        /\ NeedsAnalysis.loading f = false).
Proof.
  repeat match goal with |- _ /\ _ => split end; cbv zeta.
  - intros s e H. rewrite (ProductsList_failure b s e H). split; reflexivity.
  - intros s cid e H. rewrite (Recommendations_failure b s cid e H).
    split; reflexivity.
  - intros s cid e H. rewrite (NeedsAnalysis_failure b s cid e H).
    split; reflexivity.
  - intros s st base e H. rewrite (AnalyticsDashboard_failure b s st base e H).
    repeat split.
  - intros s st base e H. rewrite (InflationCalculator_failure b s st base e H).
    repeat split.
  - intros s e H. rewrite (ProductComparison_fetch_failure b s e H).
    split; [reflexivity | destruct s; reflexivity].
  - intros s st e Hlen H.
    rewrite (ProductComparison_compare_failure b s st e Hlen H).
    split; [reflexivity | destruct s; reflexivity].
  - intros s base e H. rewrite (PDFReports_fetch_failure b s base e H).
    repeat split.
  - intros s st base now k selected e Hsel Hnz H.
    rewrite (PDFReports_generate_failure b s st base now k selected e Hsel Hnz H).
    unfold final_state, PDFReports.error_panel. cbn.
    split; [| split; reflexivity].
    exists "Failed to generate PDF". reflexivity.
  - intros s c e H. rewrite (App_submit_failure b s c e H). repeat split.
  - intros s base e H. rewrite (MarketData_latest_failure b s base e H).
    repeat split.
  - intros s base latest e H1 H2.
    rewrite (MarketData_trends_failure b s base latest e H1 H2). repeat split.
  - intros s base latest trendsData e H1 H2 H3.
    rewrite (MarketData_insights_failure b s base latest trendsData e H1 H2 H3).
    repeat split.
  - intros s cid d H. rewrite (NeedsAnalysis_display_arrives b s cid d H).
    repeat split.
Qed.

Lemma C4_failed_fetch_error_and_data_witness :
  let b := Samples.down Samples.timed_out in
  let f := final_state (run b ProductsList.fetchProducts Samples.products_state) in
  let g := final_state
             (run Samples.trends_down
                (MarketData.fetchMarketData "http://localhost:8000")
                Samples.market_state) in
  (error_text (ProductsList.render f) = Some "Failed to fetch products"
   /\ ProductsList.products f = [])
  /\ (MarketData.marketData g = [JsNumber 1]
      /\ MarketData.trends g = None).
Proof.
  cbv zeta. split.
  - pose proof (C4_failed_fetch_error_and_data
                  (Samples.down Samples.timed_out)) as (H & _).
    exact (H Samples.products_state Samples.timed_out eq_refl).
  - pose proof (C4_failed_fetch_error_and_data Samples.trends_down)
      as (_ & _ & _ & _ & _ & _ & _ & _ & _ & _ & _ & H & _).
    destruct (H Samples.market_state "http://localhost:8000" [JsNumber 1]
                Samples.timed_out eq_refl eq_refl) as (_ & Hm & Ht & _).
    split; [exact Hm | exact Ht].
Defined.

End FailedFetch.

Section FailureMessages.
Import Js Async Api Spec.

(** C7, as the claim words it, fails outside the PDF view: the product list
    shows its fixed text although the server sent a detail. *)
Lemma C7_products_list_counterexample :
  let e := Samples.server_error (Some "Database offline") in
  let f := final_state
             (run (Samples.down e) ProductsList.fetchProducts
                Samples.products_state) in
  response_detail e = Some "Database offline"
  /\ error_text (ProductsList.render f) = Some "Failed to fetch products"
  /\ error_text (ProductsList.render f) <> response_detail e.
Proof.
  cbv zeta. repeat split; try reflexivity. discriminate.
Qed.

(** C7 (amended): a failed request shows one fixed text of its handler,
    whatever the failure and whether or not the server sent a detail.  Only
    the [catch] of [generatePDF] looks for a detail; when the error carries
    none it shows 'Failed to generate PDF'.  The requests that create the
    needs analysis are the exception: their failure is ignored and shows no
    text, the error state being left as it was when the analysis for
    display arrives. *)
Theorem C7_failure_messages (b : Backend Request) :
  (forall s st base now k selected e,
     PDFReports.selectedCustomer st = Some selected -> selected <> 0 ->
     b _ (GetPdf base k selected) = Fail e ->
     response_detail e = None ->
     PDFReports.error_panel
       (final_state
          (run b (PDFReports.generatePDF base now st
                    (PDFReports.button_report_type k)) s))
     = Some "Failed to generate PDF")
  /\ (forall s e, b _ GetProducts = Fail e ->
        error_text
          (ProductsList.render (final_state (run b ProductsList.fetchProducts s)))
        = Some "Failed to fetch products")
  /\ (forall s cid e, b _ (GenerateRecommendations cid) = Fail e ->
        error_text
          (Recommendations.render
             (final_state (run b (Recommendations.fetchRecommendations cid) s)))
        = Some "Failed to fetch recommendations")
  /\ (forall s cid e, b _ (GetEnhancedNeedsAnalysis cid) = Fail e ->
        error_text
          (NeedsAnalysis.render
             (final_state
                (run b (NeedsAnalysis.createAndFetchNeedsAnalysis cid) s)))
        = Some "Failed to fetch needs analysis")
  /\ (forall s st base e,
        b _ (GetDashboard base (AnalyticsDashboard.selectedPeriod st)) = Fail e ->
        error_text
          (AnalyticsDashboard.render
             (final_state
                (run b (AnalyticsDashboard.fetchDashboardData base st) s)))
        = Some "Failed to fetch dashboard data. Please try again.")
  /\ (forall s st base e,
        b _ (PostInflation base (InflationCalculator.formData st)) = Fail e ->
        InflationCalculator.error_panel
          (final_state (run b (InflationCalculator.handleSubmit base st) s))
        = Some "Failed to calculate inflation-adjusted returns. Please try again.")
  /\ (forall s e, b _ GetProducts = Fail e ->
        ProductComparison.error_panel
          (final_state (run b ProductComparison.fetchProducts s))
        = Some "Failed to fetch products")
  /\ (forall s st e,
        (2 <= List.length (ProductComparison.selectedProducts st))%nat ->
        b _ (PostCompare (ProductComparison.compare_body st)) = Fail e ->
        ProductComparison.error_panel
          (final_state (run b (ProductComparison.handleCompare st) s))
        = Some "Failed to compare products")
  /\ (forall s base e, b _ (GetCustomers base) = Fail e ->
        PDFReports.error_panel
          (final_state (run b (PDFReports.fetchCustomers base) s))
        = Some "Failed to fetch customers")
  /\ (forall s c e, b _ (PostCustomer c) = Fail e ->
        App.message (final_state (run b (App.handleCustomerSubmit c) s))
        = Some (App.error, "Failed to save customer. Please try again."))
  /\ (forall s base,
        (exists e, b _ (GetMarketLatest base) = Fail e)
        \/ (exists latest e,
              b _ (GetMarketLatest base) = Ok latest
              /\ b _ (GetMarketTrends base) = Fail e)
        \/ (exists latest trendsData e,
              b _ (GetMarketLatest base) = Ok latest
              /\ b _ (GetMarketTrends base) = Ok trendsData
              /\ b _ (GetMarketInsights base) = Fail e) ->
        error_text
          (MarketData.render
             (final_state (run b (MarketData.fetchMarketData base) s)))
        = Some "Failed to fetch market data. Please try again later.")
  /\ (forall s cid d, b _ (GetEnhancedNeedsAnalysis cid) = Ok d ->
        NeedsAnalysis.error
          (final_state
             (run b (NeedsAnalysis.createAndFetchNeedsAnalysis cid) s))
        = NeedsAnalysis.error s).
Proof.
  repeat match goal with |- _ /\ _ => split end; cbv zeta.
  - intros s st base now k selected e Hsel Hnz H _.
    rewrite (PDFReports_generate_failure b s st base now k selected e Hsel Hnz H).
    reflexivity.
  - intros s e H. rewrite (ProductsList_failure b s e H). reflexivity.
  - intros s cid e H. rewrite (Recommendations_failure b s cid e H).
    reflexivity.
  - intros s cid e H. rewrite (NeedsAnalysis_failure b s cid e H).
    reflexivity.
  - intros s st base e H. rewrite (AnalyticsDashboard_failure b s st base e H).
    reflexivity.
  - intros s st base e H. rewrite (InflationCalculator_failure b s st base e H).
    reflexivity.
  - intros s e H. rewrite (ProductComparison_fetch_failure b s e H).
    reflexivity.
  - intros s st e Hlen H.
    rewrite (ProductComparison_compare_failure b s st e Hlen H). reflexivity.
  - intros s base e H. rewrite (PDFReports_fetch_failure b s base e H).
    reflexivity.
  - intros s c e H. rewrite (App_submit_failure b s c e H). reflexivity.
  - intros s base [(e & H) | [(latest & e & H1 & H2)
                              | (latest & trendsData & e & H1 & H2 & H3)]].
    + rewrite (MarketData_latest_failure b s base e H). reflexivity.
    + rewrite (MarketData_trends_failure b s base latest e H1 H2). reflexivity.
    + rewrite (MarketData_insights_failure b s base latest trendsData e H1 H2 H3).
      reflexivity.
  - intros s cid d H. rewrite (NeedsAnalysis_display_arrives b s cid d H).
    reflexivity.
Qed.

Lemma C7_failure_messages_witness :
  let detailed := Samples.server_error (Some "Database offline") in
  response_detail Samples.timed_out = None
  /\ PDFReports.error_panel
       (final_state
          (run (Samples.down Samples.timed_out)
             (PDFReports.generatePDF "http://localhost:8000" Samples.noon
                (Samples.reports_state (Some 7))
                (PDFReports.button_report_type NeedsAnalysisReport))
             (Samples.reports_state (Some 7))))
     = Some "Failed to generate PDF"
  /\ error_text
       (ProductsList.render
          (final_state
             (run (Samples.down detailed) ProductsList.fetchProducts
                Samples.products_state)))
     = Some "Failed to fetch products"
  /\ NeedsAnalysis.error
       (final_state
          (run MoreSamples.creation_down
             (NeedsAnalysis.createAndFetchNeedsAnalysis 7)
             (NeedsAnalysis.mkState None true None)))
     = None.
Proof.
  cbv zeta.
  pose proof (C7_failure_messages (Samples.down Samples.timed_out))
    as (Hpdf & _).
  pose proof (C7_failure_messages
                (Samples.down (Samples.server_error (Some "Database offline"))))
    as (_ & Hlist & _).
  pose proof (C7_failure_messages MoreSamples.creation_down)
    as (_ & _ & _ & _ & _ & _ & _ & _ & _ & _ & _ & Hcreate).
  split; [reflexivity |]. split; [| split].
  - exact (Hpdf (Samples.reports_state (Some 7))
             (Samples.reports_state (Some 7)) "http://localhost:8000"
             Samples.noon NeedsAnalysisReport 7 Samples.timed_out eq_refl
             ltac:(lia) eq_refl eq_refl).
  - exact (Hlist Samples.products_state _ eq_refl).
  - exact (Hcreate (NeedsAnalysis.mkState None true None) 7 _ eq_refl).
Defined.

(** The request for a report asks for a blob, so the detail of an error
    response never reaches the [catch]: the fixed text is shown although the
    server sent one. *)
Example generatePDF_detail_lost_in_blob :
  let detailed := Samples.server_error (Some "Customer 7 has no needs analysis") in
  response_detail detailed = Some "Customer 7 has no needs analysis"
  /\ PDFReports.error_panel
       (final_state
          (run (Samples.down detailed)
             (PDFReports.generatePDF "http://localhost:8000" Samples.noon
                (Samples.reports_state (Some 7)) "needs-analysis")
             (Samples.reports_state (Some 7))))
     = Some "Failed to generate PDF".
Proof. split; reflexivity. Qed.

End FailureMessages.

(* ===================================================================== *)
(** ** Busy controls                                                      *)
(* ===================================================================== *)

Section Busy.
Import Js Async Api.

Variable b : Backend Request.

Lemma compare_busy (st s : ProductComparison.State) :
  let r := run b (ProductComparison.handleCompare st) s in
  Forall (fun x => ProductComparison.loading x = true)
         (in_flight_states (trace r))
  /\ (trace r <> [] -> ProductComparison.loading (final_state r) = false).
Proof.
  cbv zeta. unfold ProductComparison.handleCompare.
  destruct (Z.of_nat (List.length (ProductComparison.selectedProducts st)) <? 2);
    run_handler; busy_then_cleared.
Qed.

Lemma inflation_busy (base : string) (st s : InflationCalculator.State) :
  let r := run b (InflationCalculator.handleSubmit base st) s in
  Forall (fun x => InflationCalculator.loading x = true)
         (in_flight_states (trace r))
  /\ (trace r <> [] -> InflationCalculator.loading (final_state r) = false).
Proof.
  cbv zeta. unfold InflationCalculator.handleSubmit.
  run_handler; busy_then_cleared.
Qed.

Lemma generate_busy (base : string) (now : JsDate.UTC) (reportType : string)
  (st s : PDFReports.State) :
  let r := run b (PDFReports.generatePDF base now st reportType) s in
  Forall (fun x => PDFReports.loading x = true) (in_flight_states (trace r))
  /\ (trace r <> [] -> PDFReports.loading (final_state r) = false).
Proof.
  cbv zeta. unfold PDFReports.generatePDF.
  destruct (PDFReports.selectedCustomer st) as [selected |];
    [destruct (selected =? 0) |];
    [ | destruct (String.eqb reportType "needs-analysis");
        [| destruct (String.eqb reportType "comprehensive")] | ];
    run_handler; busy_then_cleared.
Qed.

Lemma submit_busy (c : Customer) (s : App.State) :
  let r := run b (CustomerForm.handleSubmit App.handleCustomerSubmit c) s in
  Forall (fun x => App.loading x = true) (in_flight_states (trace r))
  /\ (trace r <> [] -> App.loading (final_state r) = false).
Proof.
  cbv zeta. unfold CustomerForm.handleSubmit, App.handleCustomerSubmit.
  destruct (CustomerForm.complete c); run_handler; busy_then_cleared.
Qed.

Lemma market_busy (base : string) (s : MarketData.State) :
  let r := run b (MarketData.fetchMarketData base) s in
  Forall (fun x => MarketData.loading x = true) (in_flight_states (trace r))
  /\ (trace r <> [] -> MarketData.loading (final_state r) = false).
Proof.
  cbv zeta. unfold MarketData.fetchMarketData.
  run_handler; busy_then_cleared.
Qed.

Lemma dashboard_busy (base : string) (st s : AnalyticsDashboard.State) :
  let r := run b (AnalyticsDashboard.fetchDashboardData base st) s in
  Forall (fun x => AnalyticsDashboard.loading x = true)
         (in_flight_states (trace r))
  /\ (trace r <> [] -> AnalyticsDashboard.loading (final_state r) = false).
Proof.
  cbv zeta. unfold AnalyticsDashboard.fetchDashboardData.
  run_handler; busy_then_cleared.
Qed.

(** C8: in every view with a request behind a control, the control cannot
    start a request while the loading flag is set (the button is disabled,
    or the loading indicator has taken its place); the flag is set in every
    state in which a request of the handler is in flight, and it is cleared
    when the run ends, whether the requests succeeded or failed. *)
Theorem C8_busy_while_in_flight :
  (forall s,
     ProductComparison.loading s = true ->
     ProductComparison.compare_disabled s = true
     /\ run b (ProductComparison.click_compare s) s = (s, [], inl tt))
  /\ (forall st s,
        let r := run b (ProductComparison.handleCompare st) s in
        Forall (fun x => ProductComparison.loading x = true)
               (in_flight_states (trace r))
        /\ (trace r <> [] -> ProductComparison.loading (final_state r) = false))
  /\ (forall base s,
        InflationCalculator.loading s = true ->
        InflationCalculator.submit_disabled s = true
        /\ run b (InflationCalculator.click_submit base s) s = (s, [], inl tt))
  /\ (forall base st s,
        let r := run b (InflationCalculator.handleSubmit base st) s in
        Forall (fun x => InflationCalculator.loading x = true)
               (in_flight_states (trace r))
        /\ (trace r <> [] -> InflationCalculator.loading (final_state r) = false))
  /\ (forall base now reportType s,
        PDFReports.loading s = true ->
        PDFReports.generate_disabled s = true
        /\ run b (PDFReports.click_generate base now s reportType) s
           = (s, [], inl tt))
  /\ (forall base now reportType st s,
        let r := run b (PDFReports.generatePDF base now st reportType) s in
        Forall (fun x => PDFReports.loading x = true)
               (in_flight_states (trace r))
        /\ (trace r <> [] -> PDFReports.loading (final_state r) = false))
  /\ (forall c s,
        App.loading s = true ->
        CustomerForm.submit_disabled (App.loading s) = true
        /\ run b (CustomerForm.click_submit (App.loading s)
                    App.handleCustomerSubmit c) s
           = (s, [], inl tt))
  /\ (forall c s,
        let r := run b (CustomerForm.handleSubmit App.handleCustomerSubmit c) s in
        Forall (fun x => App.loading x = true) (in_flight_states (trace r))
        /\ (trace r <> [] -> App.loading (final_state r) = false))
  /\ (forall base s,
        MarketData.loading s = true ->
        MarketData.refresh_available s = false
        /\ run b (MarketData.click_refresh base s) s = (s, [], inl tt))
  /\ (forall base s,
        let r := run b (MarketData.fetchMarketData base) s in
        Forall (fun x => MarketData.loading x = true)
               (in_flight_states (trace r))
        /\ (trace r <> [] -> MarketData.loading (final_state r) = false))
  /\ (forall base s,
        AnalyticsDashboard.loading s = true ->
        AnalyticsDashboard.refetch_available s = false
        /\ run b (AnalyticsDashboard.click_refetch base s) s = (s, [], inl tt))
  /\ (forall base st s,
        let r := run b (AnalyticsDashboard.fetchDashboardData base st) s in
        Forall (fun x => AnalyticsDashboard.loading x = true)
               (in_flight_states (trace r))
        /\ (trace r <> [] -> AnalyticsDashboard.loading (final_state r) = false)).
Proof.
  repeat match goal with |- _ /\ _ => split end.
  - intros s H. unfold ProductComparison.click_compare,
      ProductComparison.compare_disabled. rewrite H. split; reflexivity.
  - intros st s. apply compare_busy.
  - intros base s H. unfold InflationCalculator.click_submit,
      InflationCalculator.submit_disabled. rewrite H. split; reflexivity.
  - intros base st s. apply inflation_busy.
  - intros base now reportType s H. unfold PDFReports.click_generate,
      PDFReports.generate_disabled. rewrite H. split; reflexivity.
  - intros base now reportType st s. apply generate_busy.
  - intros c s H. unfold CustomerForm.click_submit,
      CustomerForm.submit_disabled. rewrite H. split; reflexivity.
  - intros c s. apply submit_busy.
  - intros base s H. unfold MarketData.click_refresh,
      MarketData.refresh_available, MarketData.render. rewrite H.
    split; reflexivity.
  - intros base s. apply market_busy.
  - intros base s H. unfold AnalyticsDashboard.click_refetch,
      AnalyticsDashboard.refetch_available, AnalyticsDashboard.render.
    rewrite H. split; reflexivity.
  - intros base st s. apply dashboard_busy.
Qed.

End Busy.

Lemma C8_busy_while_in_flight_witness :
  let busy := ProductComparison.setLoading true (Samples.comparison_state [4; 9]) in
  ProductComparison.loading busy = true
  /\ Async.run Samples.healthy (ProductComparison.click_compare busy) busy
     = (busy, [], inl tt)
  /\ ProductComparison.loading
       (Async.final_state
          (Async.run (Samples.down Samples.timed_out)
             (ProductComparison.handleCompare (Samples.comparison_state [4; 9]))
             (Samples.comparison_state [4; 9])))
     = false.
Proof.
  cbv zeta.
  pose proof (C8_busy_while_in_flight Samples.healthy) as (Hclick & _).
  pose proof (C8_busy_while_in_flight (Samples.down Samples.timed_out))
    as (_ & Hrun & _).
  split; [reflexivity |]. split.
  - exact (proj2 (Hclick (ProductComparison.setLoading true
                            (Samples.comparison_state [4; 9])) eq_refl)).
  - apply (proj2 (Hrun (Samples.comparison_state [4; 9])
                    (Samples.comparison_state [4; 9]))).
    discriminate.
Defined.

(* ===================================================================== *)
(** ** Further properties of the customer form                            *)
(* ===================================================================== *)

Section FormProperties.
Import Js JsDate Async Api CustomerForm Spec Drafts.

(** An age, when there is one, comes from a non-empty date and is not
    negative. *)
Lemma calculateAge_Some (tz : Z) (today : Fields) (dob : string) (a : Z) :
  calculateAge tz today dob = Some a -> nonempty dob = true /\ 0 <= a.
Proof.
  unfold calculateAge. destruct (nonempty dob); cbn; [| discriminate].
  destruct (new_Date tz dob) as [birth |]; cbn; [| discriminate].
  destruct ((getMonth today - getMonth birth <? 0)
            || (getMonth today - getMonth birth =? 0)
               && (getDate today <? getDate birth)); cbn;
    match goal with
    | |- context [0 <=? ?x] => destruct (Z.leb_spec 0 x)
    end;
    intros Heq; inversion Heq; subst; split; (reflexivity || lia).
Qed.

Lemma completed_years_mono (t1 t2 : Fields) (birth : Z * Z * Z) :
  date_le (today_ymd t1) (today_ymd t2) ->
  completed_years t1 birth <= completed_years t2 birth.
Proof.
  destruct birth as [[y m] d].
  unfold date_le, today_ymd, completed_years, before_birthday.
  destruct (Z.ltb_spec (getMonth t1 + 1) m);
    destruct (Z.eqb_spec (getMonth t1 + 1) m);
    destruct (Z.ltb_spec (getDate t1) d);
    destruct (Z.ltb_spec (getMonth t2 + 1) m);
    destruct (Z.eqb_spec (getMonth t2 + 1) m);
    destruct (Z.ltb_spec (getDate t2) d); cbn; lia.
Qed.

Lemma calculateAge_parsed (tz : Z) (today : Fields) (dob : string) (a : Z) :
  calculateAge tz today dob = Some a ->
  exists ymd, parse_date_only dob = Some ymd.
Proof.
  destruct (parse_date_only dob) as [ymd |] eqn:Hp; [exists ymd; reflexivity |].
  unfold calculateAge, new_Date. rewrite Hp.
  destruct (nonempty dob); cbn; discriminate.
Qed.

(** X1: [calculateAge] never returns a negative age, whatever the text, the
    current date and the time zone. *)
Theorem X1_calculateAge_never_negative
  (tz : Z) (today : Fields) (dob : string) (a : Z) :
  calculateAge tz today dob = Some a -> 0 <= a.
Proof. intros H. exact (proj2 (calculateAge_Some tz today dob a H)). Qed.

Lemma X1_calculateAge_never_negative_witness :
  calculateAge 330 (mkFields 2024 5 15) "1990-08-20" = Some 33 /\ 0 <= 33.
Proof.
  split; [reflexivity |].
  exact (X1_calculateAge_never_negative 330 (mkFields 2024 5 15) "1990-08-20"
           33 eq_refl).
Defined.

(** X2: the age does not go down as the current date advances: when an age
    is computed on one day, an age at least as large is computed for the
    same date of birth on any later day. *)
Theorem X2_calculateAge_monotone
  (tz : Z) (today later : Fields) (dob : string) (a : Z) :
  calculateAge tz today dob = Some a ->
  date_le (today_ymd today) (today_ymd later) ->
  exists a', calculateAge tz later dob = Some a' /\ a <= a'.
Proof.
  intros Ha Hle.
  destruct (calculateAge_parsed tz today dob a Ha) as [ymd Hp].
  pose proof (completed_years_mono today later (local_birth tz ymd) Hle) as Hm.
  rewrite (calculateAge_local tz today dob ymd Hp) in Ha.
  rewrite (calculateAge_local tz later dob ymd Hp).
  destruct (Z.leb_spec 0 (completed_years today (local_birth tz ymd)));
    [| discriminate].
  inversion Ha; subst.
  destruct (Z.leb_spec 0 (completed_years later (local_birth tz ymd)));
    [| lia].
  eexists. split; [reflexivity | exact Hm].
Qed.

Lemma X2_calculateAge_monotone_witness :
  exists a', calculateAge 330 (mkFields 2030 0 1) "1990-08-20" = Some a'
             /\ 33 <= a'.
Proof.
  apply (X2_calculateAge_monotone 330 (mkFields 2024 5 15) (mkFields 2030 0 1)
           "1990-08-20" 33 eq_refl).
  cbn. lia.
Defined.

(** X3: west of Greenwich the date entered is read back as the day before,
    so on the eve of the [k]-th birthday [calculateAge] already returns [k]
    while only [k - 1] years are completed. *)
Theorem X3_calculateAge_eve_of_birthday
  (tz : Z) (dob : string) (y m d k : Z) :
  tz < 0 -> parse_date_only dob = Some (y, m, d) -> 1 < d -> 1 <= k ->
  let eve := mkFields (y + k) (m - 1) (d - 1) in
  calculateAge tz eve dob = Some k
  /\ completed_years eve (y, m, d) = k - 1.
Proof.
  intros Htz Hp Hd Hk eve. subst eve.
  rewrite (calculateAge_local tz _ dob _ Hp).
  unfold local_birth, prev_day.
  destruct (Z.ltb_spec tz 0); [| lia].
  destruct (Z.ltb_spec 1 d); [| lia].
  unfold completed_years, before_birthday. cbn.
  replace (m - 1 + 1) with m by lia.
  rewrite Z.ltb_irrefl, Z.eqb_refl, Z.ltb_irrefl. cbn.
  destruct (Z.ltb_spec (d - 1) d); [| lia].
  replace (y + k - y - 0) with k by lia.
  destruct (Z.leb_spec 0 k); [| lia].
  split; [reflexivity | lia].
Qed.

Lemma X3_calculateAge_eve_of_birthday_witness :
  calculateAge (-300) (mkFields 2020 5 14) "2000-06-15" = Some 20
  /\ completed_years (mkFields 2020 5 14) (2000, 6, 15) = 19.
Proof.
  exact (X3_calculateAge_eve_of_birthday (-300) "2000-06-15" 2000 6 15 20
           ltac:(lia) eq_refl ltac:(lia) ltac:(lia)).
Defined.

(** One input event keeps the link between age and date of birth. *)
Lemma handleInputChange_keeps_age_link
  (tz : Z) (today : Fields) (field value : string) (prev : Customer) :
  (forall a, age prev = Some a ->
             nonempty (date_of_birth prev) = true /\ 0 <= a) ->
  forall a, age (handleInputChange tz today field value prev) = Some a ->
            nonempty (date_of_birth (handleInputChange tz today field value prev))
            = true /\ 0 <= a.
Proof.
  intros Hprev a. unfold handleInputChange.
  destruct (String.eqb field "date_of_birth").
  - cbn. apply calculateAge_Some.
  - destruct (String.eqb field "annual_income" || String.eqb field "family_size"
              || String.eqb field "dependents"); cbn; apply Hprev.
Qed.

(** X4: in every draft a user can reach from the initial one, an age is
    present only together with a non-empty date of birth, and it is not
    negative. *)
Theorem X4_reachable_draft_age (c : Customer) (a : Z) :
  reachable_draft c -> age c = Some a ->
  date_of_birth c <> "" /\ 0 <= a.
Proof.
  intros Hr.
  assert (H : forall a, age c = Some a ->
                        nonempty (date_of_birth c) = true /\ 0 <= a).
  { induction Hr as [| tz today field value prev Hr IH].
    - cbn. discriminate.
    - apply handleInputChange_keeps_age_link, IH. }
  intros Ha. destruct (H a Ha) as [Hne Hpos]. split; [| exact Hpos].
  intros E. rewrite E in Hne. discriminate.
Qed.

Lemma X4_reachable_draft_age_witness :
  let c := handleInputChange 330 (mkFields 2024 5 15) "name" "Asha"
             (handleInputChange 330 (mkFields 2024 5 15) "date_of_birth"
                "1990-08-20" initialFormData) in
  date_of_birth c <> "" /\ 0 <= 33.
Proof.
  cbv zeta.
  apply (X4_reachable_draft_age _ 33).
  - do 2 apply draft_change. apply draft_initial.
  - reflexivity.
Defined.

(** X5: where local time is not behind UTC, entering a date of birth that
    lies after the current date leaves the draft without an age, the form
    shows two dashes, and submitting such a draft does nothing: no request
    is sent and the state of the application, its message included, stays
    as it was. *)
Theorem X5_future_birth_date_blocks_submit
  (b : Backend Request) (tz : Z) (today : Fields) (dob : string)
  (ymd : Z * Z * Z) (prev : Customer) (s : App.State) :
  0 <= tz ->
  parse_date_only dob = Some ymd ->
  date_lt (today_ymd today) ymd ->
  let draft := handleInputChange tz today "date_of_birth" dob prev in
  age draft = None
  /\ render_age draft = AgeDashes
  /\ run b (handleSubmit App.handleCustomerSubmit draft) s = (s, [], inl tt).
Proof.
  intros Htz Hp Hlt draft.
  assert (Hage : calculateAge tz today dob = None).
  { rewrite (calculateAge_local tz today dob ymd Hp).
    unfold local_birth. destruct (Z.ltb_spec tz 0); [lia |].
    destruct ymd as [[y m] d].
    apply completed_years_negative in Hlt.
    destruct (Z.leb_spec 0 (completed_years today (y, m, d))); [lia |].
    reflexivity. }
  subst draft.
  change (handleInputChange tz today "date_of_birth" dob prev)
    with (with_dob dob (calculateAge tz today dob) prev).
  rewrite Hage. unfold render_age, handleSubmit, complete, with_dob.
  cbn [age date_of_birth name email phone].
  rewrite (parse_date_only_nonempty _ _ Hp).
  split; [reflexivity |]. split; [reflexivity |].
  rewrite !Bool.andb_false_r. reflexivity.
Qed.

Lemma X5_future_birth_date_blocks_submit_witness :
  let draft := handleInputChange 330 (mkFields 2024 5 15) "date_of_birth"
                 "2030-01-01" Samples.asha in
  age draft = None
  /\ run Samples.healthy (handleSubmit App.handleCustomerSubmit draft)
       Samples.customer_state
     = (Samples.customer_state, [], inl tt).
Proof.
  cbv zeta.
  destruct (X5_future_birth_date_blocks_submit Samples.healthy 330
              (mkFields 2024 5 15) "2030-01-01" (2030, 1, 1) Samples.asha
              Samples.customer_state ltac:(lia) eq_refl)
    as (Ha & _ & Hrun).
  - cbv [date_lt date_le today_ymd getFullYear getMonth getDate]. lia.
  - split; [exact Ha | exact Hrun].
Defined.

(** West of Greenwich the day after today is read back as today: the draft
    gets the age 0 and can be submitted. *)
Example tomorrow_west_of_Greenwich :
  let today := mkFields 2024 5 15 in
  let draft := handleInputChange (-300) today "date_of_birth" "2024-06-16"
                 Samples.asha in
  age draft = Some 0 /\ complete draft = true.
Proof. split; reflexivity. Qed.

End FormProperties.

Section NumericFields.
Import Js JsDate Api CustomerForm Drafts.

Lemma parseInt_digit_head (c : ascii) (d : Z) (rest : string) :
  digit c = Some d -> hex_prefixed (String c rest) = false ->
  parseInt (String c rest) = leading_digits d true rest.
Proof.
  intros Hd Hx. unfold parseInt.
  assert (Hstart : parseInt_magnitude (String c rest)
                   = leading_digits d true rest).
  { unfold parseInt_magnitude. rewrite Hx. cbn. rewrite Hd.
    replace (10 * 0 + d) with d by lia. reflexivity. }
  destruct c as [[] [] [] [] [] [] [] []]; try discriminate Hd;
    cbn [skip_blanks]; exact Hstart.
Qed.

Lemma leading_digits_tail (ds rest : string) (acc : Z) :
  all_digits ds = true -> starts_with_digit rest = false ->
  leading_digits acc true (ds ++ rest) = leading_digits acc true ds.
Proof.
  intros Hds Hrest. revert acc.
  induction ds as [| c ds IH]; intros acc.
  - cbn. destruct rest as [| c rest]; [reflexivity |].
    cbn in *. destruct (digit c); [discriminate | reflexivity].
  - cbn in *. destruct (digit c); [| discriminate]. apply IH, Hds.
Qed.

(** Digits alone never form the hexadecimal prefix. *)
Lemma all_digits_not_hex (ds : string) :
  all_digits ds = true -> hex_prefixed ds = false.
Proof.
  destruct ds as [| c [| x ds]]; intros H; try reflexivity.
  - destruct c as [[] [] [] [] [] [] [] []]; reflexivity.
  - cbn in H. destruct (digit c); [| discriminate].
    destruct (digit x) eqn:Ex; [| discriminate].
    unfold hex_prefixed.
    destruct c as [[] [] [] [] [] [] [] []]; try reflexivity.
    destruct x as [[] [] [] [] [] [] [] []]; try reflexivity;
      discriminate Ex.
Qed.

Lemma parseInt_ignores_tail (ds rest : string) :
  ds <> "" -> all_digits ds = true -> starts_with_digit rest = false ->
  hex_prefixed (ds ++ rest) = false ->
  parseInt (ds ++ rest) = parseInt ds.
Proof.
  intros Hne Hds Hrest Hx.
  pose proof (all_digits_not_hex ds Hds) as Hx'.
  destruct ds as [| c ds]; [contradiction |].
  cbn in Hds. destruct (digit c) as [d |] eqn:Hc; [| discriminate].
  change ((String c ds ++ rest)%string) with (String c (ds ++ rest)) in *.
  rewrite (parseInt_digit_head c d _ Hc Hx), (parseInt_digit_head c d _ Hc Hx').
  apply leading_digits_tail; assumption.
Qed.

(** X6: the three numeric controls keep only the leading digits of what was
    typed.  For up to fifteen digits (which stay below 2^53, where the
    number of the code is the exact integer) followed by something that
    does not start with a digit (a decimal point, an exponent, letters), and
    that does not make the text start with the hexadecimal prefix [0x] or
    [0X], the draft is the one the digits alone give, so that 12.5 is stored
    as 12 and 1e6 as 1. *)
Theorem X6_numeric_field_keeps_leading_digits
  (tz : Z) (today : Fields) (field ds rest : string) (prev : Customer) :
  In field ["annual_income"; "family_size"; "dependents"] ->
  ds <> "" -> all_digits ds = true -> (String.length ds <= 15)%nat ->
  starts_with_digit rest = false ->
  hex_prefixed (ds ++ rest) = false ->
  handleInputChange tz today field (ds ++ rest) prev
  = handleInputChange tz today field ds prev.
Proof.
  intros Hfield Hne Hds _ Hrest Hx. unfold handleInputChange, parseInt_or_0.
  rewrite (parseInt_ignores_tail ds rest Hne Hds Hrest Hx).
  destruct Hfield as [<- | [<- | [<- | []]]]; reflexivity.
Qed.

Lemma X6_numeric_field_keeps_leading_digits_witness :
  annual_income
    (handleInputChange 330 (mkFields 2024 5 15) "annual_income" "1e6"
       initialFormData) = 1
  /\ handleInputChange 330 (mkFields 2024 5 15) "annual_income" "1e6"
       initialFormData
     = handleInputChange 330 (mkFields 2024 5 15) "annual_income" "1"
         initialFormData.
Proof.
  split; [reflexivity |].
  apply (X6_numeric_field_keeps_leading_digits 330 (mkFields 2024 5 15)
           "annual_income" "1" "e6" initialFormData).
  - left. reflexivity.
  - discriminate.
  - reflexivity.
  - cbn. lia.
  - reflexivity.
  - reflexivity.
Defined.

(** With the prefix the digits are read in base 16. *)
Example parseInt_hexadecimal :
  parseInt "0x10" = Some 16 /\ parseInt "0" = Some 0
  /\ parseInt "-0X1f" = Some (-31) /\ parseInt "0x" = NaN.
Proof. repeat split; reflexivity. Qed.

End NumericFields.

(* ===================================================================== *)
(** ** The links of the share button                                      *)
(* ===================================================================== *)

Section ShareLinks.
Import Js ShareButton.

Lemma hex_digit_unreserved (n : N) :
  (n < 16)%N -> unreserved (hex_digit n) = true.
Proof.
  intros H. destruct n as [| p]; [reflexivity |].
  do 4 (destruct p as [p | p |]; try reflexivity); lia.
Qed.

Lemma percent_safe (byte : N) :
  (byte < 256)%N -> Forall query_safe (percent byte).
Proof.
  intros H. unfold percent.
  constructor; [right; reflexivity |].
  constructor.
  { left. apply hex_digit_unreserved.
    apply N.Div0.div_lt_upper_bound. exact H. }
  constructor; [| constructor].
  left. apply hex_digit_unreserved. apply N.mod_lt. discriminate.
Qed.

Lemma utf8_bytes (cp : N) :
  (cp < 1114112)%N -> Forall (fun byte => (byte < 256)%N) (utf8 cp).
Proof.
  intros H. unfold utf8.
  pose proof (N.mod_lt cp 64 ltac:(discriminate)) as M0.
  pose proof (N.mod_lt (cp / 64) 64 ltac:(discriminate)) as M1.
  pose proof (N.mod_lt (cp / 4096) 64 ltac:(discriminate)) as M2.
  destruct (N.ltb_spec cp 128); [repeat constructor; lia |].
  destruct (N.ltb_spec cp 2048).
  { assert (cp / 64 < 32)%N by (apply N.Div0.div_lt_upper_bound; lia).
    repeat constructor; lia. }
  destruct (N.ltb_spec cp 65536).
  { assert (cp / 4096 < 16)%N by (apply N.Div0.div_lt_upper_bound; lia).
    repeat constructor; lia. }
  assert (cp / 262144 < 5)%N by (apply N.Div0.div_lt_upper_bound; lia).
  repeat constructor; lia.
Qed.

Lemma escape_safe (cp : N) :
  (cp < 1114112)%N -> Forall query_safe (escape cp).
Proof.
  intros H. unfold escape. pose proof (utf8_bytes cp H) as Hb.
  induction Hb as [| byte bytes Hbyte _ IH]; cbn [List.concat List.map];
    [constructor |].
  apply Forall_app. split; [apply percent_safe, Hbyte | exact IH].
Qed.

Lemma surrogate_pair_bound (c d : N) :
  is_high_surrogate c = true -> is_low_surrogate d = true ->
  (65536 + (c - 55296) * 1024 + (d - 56320) < 1114112)%N.
Proof.
  unfold is_high_surrogate, is_low_surrogate.
  rewrite !Bool.andb_true_iff, !N.leb_le. lia.
Qed.

Lemma encodeURIComponent_step (c : N) (s : jsstr) :
  encodeURIComponent (c :: s)
  = if unreserved c then option_map (cons c) (encodeURIComponent s)
    else if is_low_surrogate c then None
    else if is_high_surrogate c then
      match s with
      | d :: rest =>
          if is_low_surrogate d
          then option_map
                 (app (escape (65536 + (c - 55296) * 1024 + (d - 56320))%N))
                 (encodeURIComponent rest)
          else None
      | [] => None
      end
    else option_map (app (escape c)) (encodeURIComponent s).
Proof. reflexivity. Qed.

Lemma encodeURIComponent_safe (s : jsstr) :
  (Forall (fun c => (c < 65536)%N) s ->
   forall t, encodeURIComponent s = Some t -> Forall query_safe t)
  /\ (forall c, Forall (fun c => (c < 65536)%N) (c :: s) ->
      forall t, encodeURIComponent (c :: s) = Some t -> Forall query_safe t).
Proof.
  induction s as [| d rest [IH0 IH1]].
  - split.
    + intros _ t H. inversion H. constructor.
    + intros c Hc t. cbn.
      inversion Hc as [| ? ? Hc0 _]; subst.
      destruct (unreserved c) eqn:Eu.
      * intros H. injection H as <-. constructor; [left; exact Eu | constructor].
      * destruct (is_low_surrogate c); [discriminate |].
        destruct (is_high_surrogate c); [discriminate |].
        intros H. injection H as <-. rewrite app_nil_r.
        apply escape_safe. lia.
  - split; [intros Hd; apply IH1, Hd |].
    intros c Hall t.
    inversion Hall as [| ? ? Hc0 Hrest]; subst.
    inversion Hrest as [| ? ? Hd0 Hrest']; subst.
    rewrite encodeURIComponent_step.
    destruct (unreserved c) eqn:Eu.
    + destruct (encodeURIComponent (d :: rest)) as [u |] eqn:Eenc;
        [| discriminate].
      cbn [option_map]. intros H. injection H as <-. constructor; [left; exact Eu |].
      exact (IH1 d Hrest u Eenc).
    + destruct (is_low_surrogate c); [discriminate |].
      destruct (is_high_surrogate c) eqn:Eh.
      * destruct (is_low_surrogate d) eqn:El; [| discriminate].
        destruct (encodeURIComponent rest) as [u |] eqn:Eenc; [| discriminate].
        cbn [option_map]. intros H. injection H as <-. apply Forall_app. split.
        -- apply escape_safe, surrogate_pair_bound; assumption.
        -- exact (IH0 Hrest' u eq_refl).
      * destruct (encodeURIComponent (d :: rest)) as [u |] eqn:Eenc;
          [| discriminate].
        cbn [option_map]. intros H. injection H as <-. apply Forall_app. split.
        -- apply escape_safe. lia.
        -- exact (IH1 d Hrest u Eenc).
Qed.

Lemma query_safe_not_delimiter (c : N) :
  query_safe c -> ~ In c (lit " #&+/=?").
Proof.
  intros [H | ->] Hin; cbn in Hin;
    repeat (destruct Hin as [Hin | Hin]; [subst; discriminate |]);
    exact Hin.
Qed.

(** X7: whatever the share text and the page address, the value put behind
    [text=] or [body=] in the WhatsApp, e-mail and SMS links consists of
    unreserved characters and percent escapes only; it contains no blank
    and none of [# & + / = ?], so each link keeps its parameters apart. *)
Theorem X7_share_links_are_escaped
  (customerEmail : option jsstr) (shareText shareUrl q : jsstr) :
  Forall (fun c => (c < 65536)%N) (message shareText shareUrl) ->
  encodeURIComponent (message shareText shareUrl) = Some q ->
  whatsappUrl shareText shareUrl = Some (lit "https://wa.me/?text=" ++ q)
  /\ emailUrl customerEmail shareText shareUrl
     = Some ((lit "mailto:" ++ recipient customerEmail
              ++ lit "?subject=Insurance Report&body=") ++ q)
  /\ smsUrl shareText shareUrl = Some (lit "sms:?body=" ++ q)
  /\ Forall query_safe q
  /\ forall c, In c q -> ~ In c (lit " #&+/=?").
Proof.
  intros Hunits Henc.
  assert (Hsafe : Forall query_safe q)
    by exact (proj1 (encodeURIComponent_safe _) Hunits q Henc).
  unfold whatsappUrl, emailUrl, smsUrl. rewrite Henc. cbn [option_map].
  repeat split; try exact Hsafe.
  intros c Hc. apply query_safe_not_delimiter.
  rewrite Forall_forall in Hsafe. apply Hsafe, Hc.
Qed.

Lemma X7_share_links_are_escaped_witness :
  whatsappUrl (lit "Plan A & B") (lit "https://x.y/?a=1")
  = Some (lit "https://wa.me/?text=Plan%20A%20%26%20B%20https%3A%2F%2Fx.y%2F%3Fa%3D1").
Proof.
  refine (proj1 (X7_share_links_are_escaped None (lit "Plan A & B")
                   (lit "https://x.y/?a=1")
                   (lit "Plan%20A%20%26%20B%20https%3A%2F%2Fx.y%2F%3Fa%3D1")
                   _ eq_refl)).
  repeat constructor.
Defined.

End ShareLinks.

(* ===================================================================== *)
(** ** The content area and the header                                    *)
(* ===================================================================== *)

Section ShellProperties.
Import Js Async Api App Shell.

(** X8: after a customer has been saved the content area holds the needs
    analysis of the returned id only when that id is a non-zero number.
    When the answer carries no id the area is empty, and for the id 0 it
    shows the text 0, in both cases under the message that the customer was
    saved. *)
Theorem X8_content_after_save
  (b : Backend Request) (c saved : Customer) (s : State) :
  b _ (PostCustomer c) = Ok saved ->
  let f := final_state (run b (handleCustomerSubmit c) s) in
  message f
  = Some (success, "Customer saved successfully! Generating needs analysis...")
  /\ (forall n, id saved = Some n -> n <> 0 -> content f = NeedsAnalysisView n)
  /\ (id saved = None -> content f = Nothing)
  /\ (id saved = Some 0 -> content f = ZeroText).
Proof.
  intros Hb f. subst f. unfold handleCustomerSubmit. run_given.
  unfold content. cbn.
  split; [reflexivity |]. split; [| split].
  - intros n Hn Hnz. rewrite Hn. cbn.
    destruct (Z.eqb_spec n 0); [contradiction | reflexivity].
  - intros Hn. rewrite Hn. reflexivity.
  - intros Hn. rewrite Hn. reflexivity.
Qed.

Lemma X8_content_after_save_witness :
  content (final_state (run Samples.healthy
                          (handleCustomerSubmit Samples.asha)
                          Samples.customer_state))
  = NeedsAnalysisView 7.
Proof.
  pose proof (X8_content_after_save Samples.healthy Samples.asha
                (Samples.saved Samples.asha 7) Samples.customer_state eq_refl)
    as H.
  cbv zeta in H. destruct H as (_ & Hn & _).
  exact (Hn 7 eq_refl ltac:(lia)).
Defined.

(** X9: the header describes the current view when the view has a menu
    item; the needs analysis and the recommendations have none, and while
    one of them is shown the header is that of the analytics dashboard. *)
Theorem X9_header_of_view (v : ViewType) :
  (v <> needs_analysis -> v <> recommendations ->
   In (getCurrentMenuItem v) menuItems /\ item_id (getCurrentMenuItem v) = v)
  /\ (v = needs_analysis \/ v = recommendations ->
      label (getCurrentMenuItem v) = "Analytics Dashboard"
      /\ item_id (getCurrentMenuItem v) = analytics_dashboard).
Proof.
  split.
  - intros Hn Hr. destruct v; try contradiction; cbn; split;
      try reflexivity; tauto.
  - intros [-> | ->]; split; reflexivity.
Qed.

Lemma X9_header_of_view_witness :
  item_id (getCurrentMenuItem pdf_reports) = pdf_reports
  /\ label (getCurrentMenuItem needs_analysis) = "Analytics Dashboard".
Proof.
  split.
  - exact (proj2 (proj1 (X9_header_of_view pdf_reports)
                    ltac:(discriminate) ltac:(discriminate))).
  - exact (proj1 (proj2 (X9_header_of_view needs_analysis)
                    (or_introl eq_refl))).
Defined.

End ShellProperties.

(* ===================================================================== *)
(** ** Further properties of the product comparison                       *)
(* ===================================================================== *)

Section SelectionOrder.
Import Js Async Api ProductComparison.

Lemma remove_twice (x : Z) (l : list Z) :
  List.filter (fun id => negb (id =? x))
    (List.filter (fun id => negb (id =? x)) l)
  = List.filter (fun id => negb (id =? x)) l.
Proof.
  induction l as [| a l IH]; [reflexivity |]. cbn.
  destruct (negb (a =? x)) eqn:E; cbn; [rewrite E, IH |]; [reflexivity | exact IH].
Qed.

Lemma remove_length (x : Z) (l : list Z) :
  NoDup l -> In x l ->
  Datatypes.S (List.length (List.filter (fun id => negb (id =? x)) l))
  = List.length l.
Proof.
  induction 1 as [| a l Ha Hl IH]; intros Hin; [destruct Hin |]. cbn.
  destruct (Z.eqb_spec a x) as [-> | N]; cbn.
  - f_equal. f_equal. clear IH Hin Hl.
    induction l as [| c l IHl]; [reflexivity |]. cbn.
    destruct (Z.eqb_spec c x) as [-> | _]; cbn.
    + exfalso. apply Ha. left. reflexivity.
    + f_equal. apply IHl. intros C. apply Ha. right. exact C.
  - f_equal. apply IH. destruct Hin as [E | Hin]; [contradiction | exact Hin].
Qed.

Lemma reachable_NoDup (l : list Z) : reachable l -> NoDup l.
Proof.
  induction 1 as [| x l _ IH]; [constructor | apply toggle_NoDup, IH].
Qed.

(** X10: a click on one product card changes nothing but the selection,
    and in the selection it leaves the other products as they were, in the
    same order. *)
Theorem X10_toggle_keeps_the_others (productId : Z) (s : State) :
  let s' := handleProductSelection productId s in
  List.filter (fun id => negb (id =? productId)) (selectedProducts s')
  = List.filter (fun id => negb (id =? productId)) (selectedProducts s)
  /\ updSelectedProducts (fun _ => selectedProducts s) s' = s.
Proof.
  cbv zeta. unfold handleProductSelection. split.
  - cbn. destruct (in_dec Z.eq_dec productId (selectedProducts s)) as [Hin | Hout].
    + rewrite (toggle_present _ _ Hin). apply remove_twice.
    + rewrite (toggle_absent _ _ Hout), filter_app. cbn.
      rewrite Z.eqb_refl. cbn. apply app_nil_r.
  - destruct s; reflexivity.
Qed.

(** X11: on a selection reached by clicks, one more click changes the
    number of selected products by exactly one: down for a selected
    product, up for another one. *)
Theorem X11_toggle_changes_count_by_one (productId : Z) (l : list Z) :
  reachable l ->
  (In productId l ->
   Datatypes.S (List.length (toggle productId l)) = List.length l)
  /\ (~ In productId l ->
      List.length (toggle productId l) = Datatypes.S (List.length l)).
Proof.
  intros Hr. split.
  - intros Hin. rewrite (toggle_present _ _ Hin).
    apply remove_length; [apply reachable_NoDup, Hr | exact Hin].
  - intros Hout. rewrite (toggle_absent _ _ Hout), length_app. cbn. lia.
Qed.

Lemma X11_toggle_changes_count_by_one_witness :
  List.length (toggle 5 (toggle 2 (toggle 1 []))) = 3%nat
  /\ Datatypes.S (List.length (toggle 1 (toggle 2 (toggle 1 [])))) = 2%nat.
Proof.
  assert (Hr : reachable (toggle 2 (toggle 1 [])))
    by (do 2 apply reachable_click; apply reachable_initial).
  destruct (X11_toggle_changes_count_by_one 5 _ Hr) as [_ Hup].
  destruct (X11_toggle_changes_count_by_one 1 _ Hr) as [Hdown _].
  split.
  - apply Hup. cbn. intros [E | [E | []]]; discriminate E.
  - apply Hdown. cbn. left. reflexivity.
Defined.

(** X12: after a failed comparison the compare button is enabled again, and
    a second attempt that succeeds removes the error panel and shows the
    new result. *)
Theorem X12_compare_retry_recovers
  (b1 b2 : Backend Request) (st : State) (e : Exn) (data : JsVal) :
  (2 <= List.length (selectedProducts st))%nat ->
  b1 _ (PostCompare (compare_body st)) = Fail e ->
  b2 _ (PostCompare (compare_body st)) = Ok data ->
  let failed := final_state (run b1 (handleCompare st) st) in
  let retried := final_state (run b2 (click_compare failed) failed) in
  error_panel failed = Some "Failed to compare products"
  /\ compare_disabled failed = false
  /\ error_panel retried = None
  /\ comparisonResult retried = Some data
  /\ loading retried = false.
Proof.
  intros Hlen H1 H2 failed retried.
  assert (Hf : failed
               = setLoading false
                   (setError (Some "Failed to compare products") st))
    by (apply ProductComparison_compare_failure with (e := e); assumption).
  assert (Hlt : (Z.of_nat (List.length (selectedProducts st)) <? 2) = false)
    by (apply Z.ltb_ge; lia).
  assert (Hd : compare_disabled failed = false)
    by (rewrite Hf; unfold compare_disabled; cbn; exact Hlt).
  subst retried. unfold click_compare. rewrite Hd.
  rewrite Hf. unfold handleCompare. cbn [selectedProducts setLoading setError].
  rewrite Hlt.
  change (compare_body
            (setLoading false
               (setError (Some "Failed to compare products") st)))
    with (compare_body st).
  run_given. repeat split; reflexivity.
Qed.

Lemma X12_compare_retry_recovers_witness :
  let st := Samples.comparison_state [4; 9] in
  let failed :=
    final_state (run (Samples.down Samples.timed_out) (handleCompare st) st) in
  error_panel
    (final_state (run Samples.healthy (click_compare failed) failed)) = None
  /\ comparisonResult
       (final_state (run Samples.healthy (click_compare failed) failed))
     = Some (JsObject []).
Proof.
  cbv zeta.
  pose proof (X12_compare_retry_recovers (Samples.down Samples.timed_out)
                Samples.healthy (Samples.comparison_state [4; 9])
                Samples.timed_out (JsObject [])
                ltac:(cbn; lia) eq_refl eq_refl) as H.
  cbv zeta in H. destruct H as (_ & _ & He & Hr & _).
  split; [exact He | exact Hr].
Defined.

End SelectionOrder.

(* ===================================================================== *)
(** ** Further properties of the PDF reports                              *)
(* ===================================================================== *)

Section ReportProperties.
Import Js JsDate Async Api PDFReports.

(** X13: without a selected customer, or with the customer whose id is 0,
    [generatePDF] does nothing at all; with a report type other than the
    two known ones it sends no request and shows 'Failed to generate PDF'. *)
Theorem X13_generatePDF_without_request
  (b : Backend Request) (apiBaseUrl : string) (now : UTC) (st s : State)
  (reportType : string) :
  (selectedCustomer st = None \/ selectedCustomer st = Some 0 ->
   run b (generatePDF apiBaseUrl now st reportType) s = (s, [], inl tt))
  /\ (forall selected,
        selectedCustomer st = Some selected -> selected <> 0 ->
        reportType <> "needs-analysis" -> reportType <> "comprehensive" ->
        let r := run b (generatePDF apiBaseUrl now st reportType) s in
        trace r = []
        /\ error_panel (final_state r) = Some "Failed to generate PDF"
        /\ success (final_state r) = None
        /\ loading (final_state r) = false).
Proof.
  split.
  - intros [H | H]; unfold generatePDF; rewrite H; reflexivity.
  - intros selected Hsel Hnz Hn Hc. cbv zeta. unfold generatePDF.
    rewrite Hsel. destruct (Z.eqb_spec selected 0); [contradiction |].
    apply String.eqb_neq in Hn, Hc. rewrite Hn, Hc.
    unfold final_state, trace. cbn. repeat split.
Qed.

Lemma X13_generatePDF_without_request_witness :
  run Samples.healthy
    (generatePDF "http://localhost:8000" Samples.noon
       (Samples.reports_state (Some 0)) "comprehensive")
    (Samples.reports_state (Some 0))
  = (Samples.reports_state (Some 0), [], inl tt)
  /\ error_panel
       (final_state
          (run Samples.healthy
             (generatePDF "http://localhost:8000" Samples.noon
                (Samples.reports_state (Some 7)) "summary")
             (Samples.reports_state (Some 7))))
     = Some "Failed to generate PDF".
Proof.
  split.
  - apply (proj1 (X13_generatePDF_without_request Samples.healthy
                    "http://localhost:8000" Samples.noon
                    (Samples.reports_state (Some 0))
                    (Samples.reports_state (Some 0)) "comprehensive")).
    right. reflexivity.
  - apply (proj2 (X13_generatePDF_without_request Samples.healthy
                    "http://localhost:8000" Samples.noon
                    (Samples.reports_state (Some 7))
                    (Samples.reports_state (Some 7)) "summary") 7);
      [reflexivity | lia | discriminate | discriminate].
Defined.

(** X14: once [generatePDF] has got past its guard, it ends with exactly
    one of the two notices: the success notice without an error, or the
    error without a success notice, whatever was shown before. *)
Theorem X14_generatePDF_one_notice
  (b : Backend Request) (apiBaseUrl : string) (now : UTC) (st s : State)
  (reportType : string) (selected : Z) :
  selectedCustomer st = Some selected -> selected <> 0 ->
  let f := final_state (run b (generatePDF apiBaseUrl now st reportType) s) in
  (error f = None /\ success f <> None)
  \/ (error f <> None /\ success f = None).
Proof.
  intros Hsel Hnz. cbv zeta. unfold generatePDF. rewrite Hsel.
  destruct (Z.eqb_spec selected 0); [contradiction |].
  destruct (String.eqb reportType "needs-analysis");
    [| destruct (String.eqb reportType "comprehensive")];
    run_handler;
    first [ left; split; [reflexivity | discriminate]
          | right; split; [discriminate | reflexivity] ].
Qed.

Lemma X14_generatePDF_one_notice_witness :
  let s := PDFReports.mkState Samples.report_customers (Some 7) false
             (Some "Failed to fetch customers") None in
  let f := final_state
             (run Samples.healthy
                (generatePDF "http://localhost:8000" Samples.noon s
                   "needs-analysis") s) in
  error f = None /\ success f = Some "needs analysis PDF generated successfully!".
Proof.
  cbv zeta.
  pose proof (X14_generatePDF_one_notice Samples.healthy
                "http://localhost:8000" Samples.noon
                (PDFReports.mkState Samples.report_customers (Some 7) false
                   (Some "Failed to fetch customers") None)
                (PDFReports.mkState Samples.report_customers (Some 7) false
                   (Some "Failed to fetch customers") None)
                "needs-analysis" 7 eq_refl ltac:(lia)) as H.
  cbv zeta in H. destruct H as [[He _] | [He _]].
  - split; [exact He | reflexivity].
  - exfalso. apply He. reflexivity.
Defined.

Lemma not_space_in_range (c : N) :
  (32 < c < 160)%N -> is_space c = false.
Proof.
  intros [Hlo Hhi]. unfold is_space.
  replace (c <=? 13)%N with false by (symmetry; apply N.leb_gt; lia).
  replace (c =? 32)%N with false by (symmetry; apply N.eqb_neq; lia).
  replace (c =? 160)%N with false by (symmetry; apply N.eqb_neq; lia).
  replace (c =? 5760)%N with false by (symmetry; apply N.eqb_neq; lia).
  replace (8192 <=? c)%N with false by (symmetry; apply N.leb_gt; lia).
  replace (c =? 8232)%N with false by (symmetry; apply N.eqb_neq; lia).
  replace (c =? 8233)%N with false by (symmetry; apply N.eqb_neq; lia).
  replace (c =? 8239)%N with false by (symmetry; apply N.eqb_neq; lia).
  replace (c =? 8287)%N with false by (symmetry; apply N.eqb_neq; lia).
  replace (c =? 12288)%N with false by (symmetry; apply N.eqb_neq; lia).
  replace (c =? 65279)%N with false by (symmetry; apply N.eqb_neq; lia).
  rewrite Bool.andb_false_r. reflexivity.
Qed.

Lemma replace_spaces_from_no_space (in_run : bool) (s : jsstr) :
  Forall (fun c => is_space c = false) (replace_spaces_from in_run s).
Proof.
  revert in_run. induction s as [| c s IH]; intros in_run; [constructor |].
  cbn. destruct (is_space c) eqn:E.
  - destruct in_run; [apply IH |].
    constructor; [reflexivity | apply IH].
  - constructor; [exact E | apply IH].
Qed.

Lemma pad_no_space (w : nat) (n : Z) :
  Forall (fun c => is_space c = false) (pad w n).
Proof.
  revert n. induction w as [| w IH]; intros n; [constructor |].
  cbn [pad]. apply Forall_app. split; [apply IH |].
  constructor; [| constructor].
  apply not_space_in_range. unfold digit_unit.
  pose proof (Z.mod_pos_bound n 10 ltac:(lia)). lia.
Qed.

Lemma before_first_keeps (P : N -> Prop) (sep : N) (s : jsstr) :
  Forall P s -> Forall P (before_first sep s).
Proof.
  induction 1 as [| c s Hc _ IH]; [constructor |]. cbn.
  destruct (c =? sep)%N; [constructor | constructor; assumption].
Qed.

Lemma lit_no_space (s : string) :
  forallb (fun c => negb (is_space c)) (lit s) = true ->
  Forall (fun c => is_space c = false) (lit s).
Proof.
  rewrite forallb_forall, Forall_forall. intros H c Hc.
  apply Bool.negb_true_iff, H, Hc.
Qed.

Lemma toISOString_no_space (t : UTC) :
  Forall (fun c => is_space c = false) (toISOString t).
Proof.
  unfold toISOString.
  apply Forall_app. split.
  { destruct ((0 <=? utcYear t) && (utcYear t <=? 9999)).
    - apply pad_no_space.
    - apply Forall_app. split; [| apply pad_no_space].
      destruct (utcYear t <? 0); apply lit_no_space; reflexivity. }
  do 6 (apply Forall_app; split; [apply lit_no_space; reflexivity |];
        apply Forall_app; split; [apply pad_no_space |]).
  apply lit_no_space; reflexivity.
Qed.

(** X15: the name under which a report is saved never contains white
    space, whatever the customer is called. *)
Theorem X15_download_name_without_spaces
  (reportType : string) (cs : list ReportCustomer) (selected : Z) (now : UTC) :
  Forall (fun c => is_space c = false)
         (download_name reportType cs selected now).
Proof.
  assert (Hname : Forall (fun c => is_space c = false) (customerName cs selected)).
  { unfold customerName.
    destruct (List.find (fun c => rc_id c =? selected) cs).
    - apply replace_spaces_from_no_space.
    - apply lit_no_space. reflexivity. }
  assert (Hstamp : Forall (fun c => is_space c = false) (timestamp now))
    by (apply before_first_keeps, toISOString_no_space).
  unfold download_name.
  destruct (String.eqb reportType "needs-analysis");
    (apply Forall_app; split; [apply lit_no_space; reflexivity |]);
    (apply Forall_app; split; [exact Hname |]);
    (apply Forall_app; split; [apply lit_no_space; reflexivity |]);
    (apply Forall_app; split; [exact Hstamp |]);
    apply lit_no_space; reflexivity.
Qed.

End ReportProperties.

(* ===================================================================== *)
(** ** Further properties of the loading views                            *)
(* ===================================================================== *)

Section MarketProperties.
Import Js Async Api.

(** X16: the market data fetch asks for latest data, trends and insights
    in this order and stops at the first failure: one request when the
    first fails, two when the second fails; when all three succeed their
    data is stored, the error is cleared and the content is shown. *)
Theorem X16_market_fetch_requests
  (b : Backend Request) (base : string) (s : MarketData.State) :
  let r := run b (MarketData.fetchMarketData base) s in
  (forall e, b _ (GetMarketLatest base) = Fail e ->
     count_requests (trace r) = 1%nat)
  /\ (forall latest e,
        b _ (GetMarketLatest base) = Ok latest ->
        b _ (GetMarketTrends base) = Fail e ->
        count_requests (trace r) = 2%nat)
  /\ (forall latest trendsData insightsData,
        b _ (GetMarketLatest base) = Ok latest ->
        b _ (GetMarketTrends base) = Ok trendsData ->
        b _ (GetMarketInsights base) = Ok insightsData ->
        trace r
        = [ Sent (GetMarketLatest base)
              (MarketData.setError None (MarketData.setLoading true s));
            Sent (GetMarketTrends base)
              (MarketData.mkState latest (MarketData.trends s)
                 (MarketData.insights s) true None);
            Sent (GetMarketInsights base)
              (MarketData.mkState latest (Some trendsData)
                 (MarketData.insights s) true None) ]
        /\ final_state r
           = MarketData.mkState latest (Some trendsData) (Some insightsData)
               false None
        /\ MarketData.render (final_state r) = Content).
Proof.
  cbv zeta. unfold MarketData.fetchMarketData.
  split; [| split].
  - intros e H. run_given. reflexivity.
  - intros latest e H1 H2. run_given. reflexivity.
  - intros latest trendsData insightsData H1 H2 H3. run_given.
    repeat split.
Qed.

Lemma X16_market_fetch_requests_witness :
  count_requests
    (trace (run Samples.trends_down
              (MarketData.fetchMarketData "http://localhost:8000")
              Samples.market_state)) = 2%nat
  /\ MarketData.render
       (final_state (run Samples.healthy
                       (MarketData.fetchMarketData "http://localhost:8000")
                       Samples.market_state)) = Content.
Proof.
  pose proof (X16_market_fetch_requests Samples.trends_down
                "http://localhost:8000" Samples.market_state) as H1.
  pose proof (X16_market_fetch_requests Samples.healthy
                "http://localhost:8000" Samples.market_state) as H2.
  cbv zeta in H1, H2.
  destruct H1 as (_ & Htwo & _). destruct H2 as (_ & _ & Hall).
  split.
  - exact (Htwo [JsNumber 1] Samples.timed_out eq_refl eq_refl).
  - exact (proj2 (proj2 (Hall [JsNumber 1] (JsObject []) (JsObject [])
                           eq_refl eq_refl eq_refl))).
Defined.

(** X17: the market data view offers no way back from a failed fetch: its
    error panel has no retry control and the Refresh button belongs to the
    content, so after a failure a click on Refresh cannot happen and no new
    request is ever sent by the mounted view. *)
Theorem X17_market_no_retry_after_failure
  (b b' : Backend Request) (base : string) (s : MarketData.State) :
  (exists e, b _ (GetMarketLatest base) = Fail e)
  \/ (exists latest e,
        b _ (GetMarketLatest base) = Ok latest
        /\ b _ (GetMarketTrends base) = Fail e)
  \/ (exists latest trendsData e,
        b _ (GetMarketLatest base) = Ok latest
        /\ b _ (GetMarketTrends base) = Ok trendsData
        /\ b _ (GetMarketInsights base) = Fail e) ->
  let f := final_state (run b (MarketData.fetchMarketData base) s) in
  MarketData.refresh_available f = false
  /\ run b' (MarketData.click_refresh base f) f = (f, [], inl tt).
Proof.
  intros H f.
  assert (Hf : MarketData.refresh_available f = false).
  { subst f.
    destruct H as [(e & H) | [(latest & e & H1 & H2)
                              | (latest & trendsData & e & H1 & H2 & H3)]].
    - rewrite (MarketData_latest_failure b s base e H). reflexivity.
    - rewrite (MarketData_trends_failure b s base latest e H1 H2). reflexivity.
    - rewrite (MarketData_insights_failure b s base latest trendsData e H1 H2 H3).
      reflexivity. }
  split; [exact Hf |].
  unfold MarketData.click_refresh. rewrite Hf. reflexivity.
Qed.

Lemma X17_market_no_retry_after_failure_witness :
  let f := final_state
             (run Samples.trends_down
                (MarketData.fetchMarketData "http://localhost:8000")
                Samples.market_state) in
  run Samples.healthy (MarketData.click_refresh "http://localhost:8000" f) f
  = (f, [], inl tt).
Proof.
  cbv zeta.
  refine (proj2 (X17_market_no_retry_after_failure Samples.trends_down
                   Samples.healthy "http://localhost:8000"
                   Samples.market_state _)).
  right. left. exists [JsNumber 1], Samples.timed_out. split; reflexivity.
Defined.

(** X18: the analytics dashboard does offer a retry: after a failed fetch
    the Retry control is available, and a retry that succeeds clears the
    error and shows the content with the new metrics. *)
Theorem X18_dashboard_retry_recovers
  (b1 b2 : Backend Request) (base : string) (st : AnalyticsDashboard.State)
  (e : Exn) (data : JsVal) :
  b1 _ (GetDashboard base (AnalyticsDashboard.selectedPeriod st)) = Fail e ->
  b2 _ (GetDashboard base (AnalyticsDashboard.selectedPeriod st)) = Ok data ->
  let failed :=
    final_state (run b1 (AnalyticsDashboard.fetchDashboardData base st) st) in
  let retried :=
    final_state (run b2 (AnalyticsDashboard.click_refetch base failed) failed) in
  AnalyticsDashboard.refetch_available failed = true
  /\ AnalyticsDashboard.render retried = Content
  /\ AnalyticsDashboard.metrics retried = Some data
  /\ AnalyticsDashboard.error retried = None.
Proof.
  intros H1 H2 failed retried. subst retried failed.
  rewrite (AnalyticsDashboard_failure b1 st st base e H1).
  unfold AnalyticsDashboard.click_refetch. cbn.
  unfold AnalyticsDashboard.fetchDashboardData.
  cbn [AnalyticsDashboard.selectedPeriod].
  run_given. repeat split.
Qed.

Lemma X18_dashboard_retry_recovers_witness :
  let st := AnalyticsDashboard.mkState None true None "30d" in
  let failed :=
    final_state
      (run (Samples.down Samples.timed_out)
         (AnalyticsDashboard.fetchDashboardData "http://localhost:8000" st) st) in
  AnalyticsDashboard.render
    (final_state
       (run Samples.healthy
          (AnalyticsDashboard.click_refetch "http://localhost:8000" failed)
          failed))
  = Content.
Proof.
  cbv zeta.
  pose proof (X18_dashboard_retry_recovers (Samples.down Samples.timed_out)
                Samples.healthy "http://localhost:8000"
                (AnalyticsDashboard.mkState None true None "30d")
                Samples.timed_out (JsObject []) eq_refl eq_refl) as H.
  cbv zeta in H. exact (proj1 (proj2 H)).
Defined.

End MarketProperties.

(* ===================================================================== *)
(** ** Creating and showing a needs analysis                              *)
(* ===================================================================== *)

Section NeedsAnalysisProperties.
Import Js Async Api.

(** X20: when the customer cannot be fetched, [createNeedsAnalysis] posts
    nothing and fails with the error of the fetch. *)
Theorem X20_createNeedsAnalysis_fetch_fails
  (S : Type) (b : Backend Request) (s : S) (customerId : Z) (e : Exn) :
  b _ (GetCustomer customerId) = Fail e ->
  run b (createNeedsAnalysis customerId) s
  = (s, [Sent (GetCustomer customerId) s], inr e)
  /\ posted_inputs (trace (run b (createNeedsAnalysis customerId) s)) = [].
Proof.
  intros H. unfold createNeedsAnalysis, trace. cbn. rewrite H. cbn.
  split; reflexivity.
Qed.

Lemma X20_createNeedsAnalysis_fetch_fails_witness :
  run (Samples.down Samples.timed_out) (createNeedsAnalysis 7) tt
  = (tt, [Sent (GetCustomer 7) tt], inr Samples.timed_out).
Proof.
  exact (proj1 (X20_createNeedsAnalysis_fetch_fails unit
                  (Samples.down Samples.timed_out) tt 7 Samples.timed_out
                  eq_refl)).
Defined.

(** X21: in the needs analysis view a failure while creating the analysis
    is swallowed: whatever the creation did, the analysis for display is
    requested, as the last of two or three requests, and when it arrives it
    is stored and loading ends without any error having been set. *)
Theorem X21_creation_failure_is_ignored
  (b : Backend Request) (customerId : Z) (s : NeedsAnalysis.State) :
  let r := run b (NeedsAnalysis.createAndFetchNeedsAnalysis customerId) s in
  (exists earlier,
     trace r
     = earlier ++ [Sent (GetEnhancedNeedsAnalysis customerId)
                     (NeedsAnalysis.setLoading true s)]
     /\ (1 <= List.length earlier <= 2)%nat)
  /\ (forall d, b _ (GetEnhancedNeedsAnalysis customerId) = Ok d ->
        final_state r
        = NeedsAnalysis.mkState (Some d) false (NeedsAnalysis.error s)).
Proof.
  cbv zeta.
  unfold NeedsAnalysis.createAndFetchNeedsAnalysis, createNeedsAnalysis.
  unfold final_state, trace. cbn.
  destruct (b _ (GetCustomer customerId)) as [c | e1]; cbn.
  - match goal with
    | |- context [b _ (PostNeedsAnalysis ?i)] =>
        destruct (b _ (PostNeedsAnalysis i)); cbn
    end;
      (destruct (b _ (GetEnhancedNeedsAnalysis customerId)) as [d | e2]; cbn;
       (split;
        [ eexists [_; _]; split; [reflexivity | cbn; lia]
        | intros d' Hd; inversion Hd; subst; reflexivity ])).
  - destruct (b _ (GetEnhancedNeedsAnalysis customerId)) as [d | e2]; cbn;
      (split;
       [ eexists [_]; split; [reflexivity | cbn; lia]
       | intros d' Hd; inversion Hd; subst; reflexivity ]).
Qed.

Lemma X21_creation_failure_is_ignored_witness :
  final_state
    (run MoreSamples.creation_down
       (NeedsAnalysis.createAndFetchNeedsAnalysis 7)
       (NeedsAnalysis.mkState None true None))
  = NeedsAnalysis.mkState (Some (JsObject [("customer", JsObject [])])) false None.
Proof.
  pose proof (X21_creation_failure_is_ignored MoreSamples.creation_down 7
                (NeedsAnalysis.mkState None true None)) as H.
  cbv zeta in H. destruct H as (_ & H).
  exact (H _ eq_refl).
Defined.

End NeedsAnalysisProperties.

(* ===================================================================== *)
(** ** The fields of the inflation calculator                             *)
(* ===================================================================== *)

Section InflationFields.
Import Js InflationInput.

Variable F : Type.
Variable parseFloat : string -> F.

Lemma get_assign_same (k : string) (v : FieldValue F) (d : FormData F) :
  get k (assign k v d) = Some v.
Proof.
  induction d as [| [k' v'] d IH]; cbn.
  - rewrite String.eqb_refl. reflexivity.
  - destruct (String.eqb k k') eqn:E; cbn; rewrite ?String.eqb_refl, ?E;
      [reflexivity | exact IH].
Qed.

Lemma get_assign_other (k k' : string) (v : FieldValue F) (d : FormData F) :
  k' <> k -> get k' (assign k v d) = get k' d.
Proof.
  intros Hne. apply String.eqb_neq in Hne.
  induction d as [| [k0 v0] d IH]; cbn.
  - rewrite Hne. reflexivity.
  - destruct (String.eqb k k0) eqn:E; cbn.
    + apply String.eqb_eq in E. subst k0. rewrite Hne. reflexivity.
    + destruct (String.eqb k' k0); [reflexivity | exact IH].
Qed.

(** X19: the frequency select goes through [parseInt] like the amount
    fields, so choosing any of its three options replaces the frequency by
    [NaN]; the other fields keep their values. *)
Theorem X19_frequency_becomes_NaN (value : string) (prev : FormData F) :
  In value frequency_options ->
  get "investment_frequency"
    (handleInputChange parseFloat "investment_frequency" value prev)
  = Some (NumberValue F NaN)
  /\ forall k, k <> "investment_frequency" ->
       get k (handleInputChange parseFloat "investment_frequency" value prev)
       = get k prev.
Proof.
  intros Hv. unfold handleInputChange. split.
  - rewrite get_assign_same.
    destruct Hv as [<- | [<- | [<- | []]]]; reflexivity.
  - intros k Hk. apply get_assign_other, Hk.
Qed.

End InflationFields.

Lemma X19_frequency_becomes_NaN_witness :
  InflationInput.get "investment_frequency"
    (InflationInput.handleInputChange (fun s : string => s)
       "investment_frequency" "quarterly"
       (InflationInput.initialFormData string))
  = Some (InflationInput.NumberValue string Js.NaN).
Proof.
  refine (proj1 (X19_frequency_becomes_NaN string (fun s => s) "quarterly"
                   (InflationInput.initialFormData string) _)).
  right. left. reflexivity.
Defined.
